(** * adhan: next-prayer selection and the polling loop of [main.go]

    A shallow embedding of [main.go].

    Go strings are byte strings; [<] on them is the byte-wise
    lexicographic order, which is [String.ltb], and [==] is
    [String.eqb].

    What a goroutine does to the outside (HTTP requests, log and console
    output, notifications, sleeps, exit) is recorded in order in the
    [trace] of a [World]; what the outside hands to it (clock samples,
    fetch outcomes, push outcomes, input lines) comes from an [Env],
    call by call, and the [World] counts the calls made so far.  The
    functions of [main.go] are computations in the state monad over
    [World].  A [for { ... }] loop is its body, run for a number of
    passes: the claims on the loops speak of one pass, or of every
    number of passes.

    [checkPrayerTimes] and [handleUserInput] run as two goroutines that
    share no variable; each is modelled on its own, with the [Env]
    standing for what that goroutine is handed. *)

From Stdlib Require Import String Ascii List Bool Arith ZArith NArith Lia.
From Stdlib Require Import DecimalString.
From ExtLib Require Import Structures.Monad Structures.MonadState.
From ExtLib Require Import Data.Monads.StateMonad.
Import ListNotations.
Import MonadNotation.
Local Open Scope monad_scope.
Local Open Scope list_scope.
Local Open Scope string_scope.

(** ** Data model (main.go, lines 19-46) *)

Definition apiURL : string := "http://api.aladhan.com/v1/timingsByCity".
Definition city : string := "Boynton Beach".
Definition country : string := "United States".
Definition method : Z := 3.

Record Timings : Type := mkTimings
  { Fajr : string;
    Sunrise : string;
    Dhuhr : string;
    Asr : string;
    Sunset : string;
    Maghrib : string;
    Isha : string;
    Imsak : string;
    Midnight : string }.

(** [Timings{}]: every field is the empty string. *)
Definition Timings_zero : Timings :=
  mkTimings "" "" "" "" "" "" "" "" "".

(** The anonymous struct of the [prayers] slice (lines 72-75). *)
Record Prayer : Type := mkPrayer
  { Name : string;
    Time : string }.

(** ** The selector (lines 69-92), after the clock has been read *)

(** The slice literal of lines 72-82. *)
Definition prayers (timings : Timings) : list Prayer :=
  [ mkPrayer "Fajr" (Fajr timings);
    mkPrayer "Sunrise" (Sunrise timings);
    mkPrayer "Dhuhr" (Dhuhr timings);
    mkPrayer "Asr" (Asr timings);
    mkPrayer "Maghrib" (Maghrib timings);
    mkPrayer "Isha" (Isha timings) ].

(** The [range] loop of lines 84-88: [Some] is the [return] inside the
    loop, [None] is falling out of it. *)
Fixpoint scan (currentTime : string) (ps : list Prayer)
  : option (string * string) :=
  match ps with
  | [] => None
  | prayer :: rest =>
      if (currentTime <? Time prayer)%string
      then Some (Name prayer, Time prayer)
      else scan currentTime rest
  end.

(** [prayers[0].Name]; the slice is a six-element literal, so the index
    is always in range. *)
Definition first_name (ps : list Prayer) : string :=
  match ps with
  | p :: _ => Name p
  | [] => ""
  end.

(** Lines 72-91 of [getNextPrayerTime], with the value of [currentTime]
    (line 70) given. *)
Definition nextPrayerAt (currentTime : string) (timings : Timings)
  : string * string :=
  match scan currentTime (prayers timings) with
  | Some r => r
  | None => (first_name (prayers timings), Fajr timings)
  end.

(** Whether the six candidate times are strictly increasing in day
    order, under Go's string order. *)
Fixpoint increasing (ts : list string) : bool :=
  match ts with
  | a :: rest =>
      match rest with
      | b :: _ => (a <? b)%string && increasing rest
      | [] => true
      end
  | [] => true
  end.

Definition strictly_increasing (timings : Timings) : bool :=
  increasing (map Time (prayers timings)).

(** ** The world a goroutine runs in *)

(** [time.Duration], in nanoseconds. *)
Definition Duration : Type := Z.
Definition Second : Duration := 1000000000%Z.
Definition Minute : Duration := (60 * Second)%Z.

(** What the program does to the outside, in program order. *)
Inductive Effect : Type :=
| HttpGet (url : string)            (* http.Get(url) *)
| Log (line : string)               (* log.Println: the text between the
                                       timestamp and the final newline *)
| Stdout (text : string)            (* fmt.Print, fmt.Printf, fmt.Println *)
| Table (header : list string) (data : list (list string))
                                    (* printTable(header, data) *)
| Notify (title message : string)   (* the note pushed by showNotification *)
| Sleep (d : Duration)              (* time.Sleep(d) *)
| Exit (code : Z).                  (* os.Exit(code) *)

(** What the outside hands to the goroutine, call by call.  The fetch
    outcome stands for the three fallible steps of [getPrayerTimes]
    (http.Get, ioutil.ReadAll, json.Unmarshal): [inl] is
    [response.Data.Timings], [inr] is the text of the error. *)
Record Env : Type := mkEnv
  { now_HHMM : nat -> string;          (* k-th time.Now().Format("15:04") *)
    fetch : nat -> Timings + string;   (* k-th run of getPrayerTimes *)
    push_err : nat -> bool;            (* k-th note.Push() returns an error *)
    stdin_line : nat -> string }.      (* k-th reader.ReadString('\n') *)

Record World : Type := mkWorld
  { clock_reads : nat;
    fetches : nat;
    pushes : nat;
    lines_read : nat;
    trace : list Effect }.

Definition M : Type -> Type := state World.

(** Control after one pass through the body of a [for { ... }] loop:
    back to the top of the loop ([continue], or the end of the body), or
    the process is gone ([os.Exit]). *)
Inductive Ctl : Type :=
| Next
| Halt.

Definition newline : string := String (ascii_of_nat 10) EmptyString.

Definition emit (e : Effect) : M unit :=
  w <- get ;;
  put (mkWorld (clock_reads w) (fetches w) (pushes w) (lines_read w)
               (trace w ++ [e])%list).

(** [for { body }] run for at most [fuel] passes. *)
Fixpoint for_ever (fuel : nat) (body : M Ctl) : M Ctl :=
  match fuel with
  | O => ret Next
  | S k =>
      c <- body ;;
      match c with
      | Next => for_ever k body
      | Halt => ret Halt
      end
  end.

Definition is_alert (e : Effect) : bool :=
  match e with
  | Notify _ _ => true
  | _ => false
  end.

(** The invocations of the alert sink recorded in a trace. *)
Definition alerts (tr : list Effect) : list Effect := filter is_alert tr.

(** [fmt.Sprintf("%d", n)]. *)
Definition itoa (n : Z) : string :=
  DecimalString.NilZero.string_of_int (Z.to_int n).

Definition fetch_failed_line (err : string) : string :=
  "Failed to fetch prayer times: " ++ err.

Definition status_line (nextPrayer nextTime : string) : string :=
  "Next prayer: " ++ nextPrayer ++ ", Time: " ++ nextTime ++ newline.

Definition prompt : string := "Enter a command (or 'q' to quit): ".

Section Program.

Variable env : Env.

(** [strings.TrimSpace], from Go's standard library. *)
Variable TrimSpace : string -> string.

(** [time.Now().Format("15:04")] *)
Definition time_Now_Format : M string :=
  w <- get ;;
  put (mkWorld (S (clock_reads w)) (fetches w) (pushes w) (lines_read w)
               (trace w)) ;;
  ret (now_HHMM env (clock_reads w)).

(** [reader.ReadString('\n')]; the error is dropped at line 148. *)
Definition ReadString : M string :=
  w <- get ;;
  put (mkWorld (clock_reads w) (fetches w) (pushes w) (S (lines_read w))
               (trace w)) ;;
  ret (stdin_line env (lines_read w)).

(** Lines 48-67.  Go's [(Timings, error)]: [None] is [nil]. *)
Definition getPrayerTimes : M (Timings * option string) :=
  let url :=
    apiURL ++ "?city=" ++ city ++ "&country=" ++ country
           ++ "&method=" ++ itoa method in
  emit (HttpGet url) ;;
  w <- get ;;
  put (mkWorld (clock_reads w) (S (fetches w)) (pushes w) (lines_read w)
               (trace w)) ;;
  match fetch env (fetches w) with
  | inl timings => ret (timings, None)
  | inr err => ret (Timings_zero, Some err)
  end.

(** Lines 69-92. *)
Definition getNextPrayerTime (timings : Timings) : M (string * string) :=
  currentTime <- time_Now_Format ;;
  ret (nextPrayerAt currentTime timings).

(** Lines 94-129.  The note's sound, group and images are constants;
    the note is recorded by the two arguments it is built from. *)
Definition showNotification (title message : string) : M unit :=
  emit (Notify title message) ;;
  w <- get ;;
  put (mkWorld (clock_reads w) (fetches w) (S (pushes w)) (lines_read w)
               (trace w)) ;;
  if push_err env (pushes w) then emit (Log "Uh oh!") else ret tt.

(** Lines 131-141. *)
Definition printTable (header : list string) (data : list (list string))
  : M unit :=
  emit (Table header data).

(** The body of the loop of [handleUserInput], lines 147-183. *)
Definition handleUserInput_body : M Ctl :=
  emit (Stdout prompt) ;;
  command <- ReadString ;;
  let command := TrimSpace command in
  if (command =? "next")%string then
    r <- getPrayerTimes ;;
    let '(timings, err) := r in
    match err with
    | Some e =>
        emit (Log (fetch_failed_line e)) ;;
        ret Next
    | None =>
        r <- getNextPrayerTime timings ;;
        let '(nextPrayer, nextTime) := r in
        emit (Stdout (status_line nextPrayer nextTime)) ;;
        ret Next
    end
  else if (command =? "all")%string then
    r <- getPrayerTimes ;;
    let '(timings, err) := r in
    match err with
    | Some e =>
        emit (Log (fetch_failed_line e)) ;;
        ret Next
    | None =>
        let header := ["Prayer"; "Time"] in
        let data :=
          [ ["Fajr"; Fajr timings];
            ["Sunrise"; Sunrise timings];
            ["Dhuhr"; Dhuhr timings];
            ["Asr"; Asr timings];
            ["Maghrib"; Maghrib timings];
            ["Isha"; Isha timings] ] in
        printTable header data ;;
        ret Next
    end
  else if (command =? "q")%string then
    emit (Exit 0) ;;
    ret Halt
  else
    emit (Stdout ("Invalid command" ++ newline)) ;;
    ret Next.

(** Lines 143-185. *)
Definition handleUserInput (fuel : nat) : M Ctl :=
  for_ever fuel handleUserInput_body.

(** The body of the loop of [checkPrayerTimes], lines 191-207. *)
Definition checkPrayerTimes_body : M Ctl :=
  r <- getPrayerTimes ;;
  let '(timings, err) := r in
  match err with
  | Some e =>
      emit (Log (fetch_failed_line e)) ;;
      emit (Sleep Minute) ;;
      ret Next
  | None =>
      r <- getNextPrayerTime timings ;;
      let '(nextPrayer, nextTime) := r in
      emit (Stdout (status_line nextPrayer nextTime)) ;;
      currentTime <- time_Now_Format ;;
      (if (currentTime =? nextTime)%string
       then showNotification "Prayer Time"
              ("It's time for " ++ nextPrayer ++ " prayer.")
       else ret tt) ;;
      emit (Sleep (1 * Minute)%Z) ;;
      ret Next
  end.

(** Lines 187-209; the deferred [wg.Done()] runs only if the loop is
    left, which no path of the body does. *)
Definition checkPrayerTimes (fuel : nat) : M Ctl :=
  for_ever fuel checkPrayerTimes_body.

(** Lines 212-220 of [main], up to the start of the two loops. *)
Definition main_startup : M unit :=
  showNotification "Adhan" "Adhan app is active!" ;;
  emit (Sleep (3 * Second)%Z) ;;
  r <- getPrayerTimes ;;
  let '(timings, err) := r in
  match err with
  | Some e =>
      emit (Log (fetch_failed_line e)) ;;
      emit (Sleep Minute)
  | None => ret tt
  end ;;
  r <- getNextPrayerTime timings ;;
  let '(nx, tim) := r in
  showNotification "Adhan" ("Next Prayer is : " ++ nx ++ " at: " ++ tim).

End Program.

(** ASCII white space, the bytes [strings.TrimSpace] strips from an
    ASCII string: tab, line feed, vertical tab, form feed, carriage
    return and space. *)
Definition ascii_space (c : ascii) : bool :=
  let n := nat_of_ascii c in
  (((9 <=? n) && (n <=? 13)) || (n =? 32))%nat.

Fixpoint trim_left (s : string) : string :=
  match s with
  | String c rest => if ascii_space c then trim_left rest else s
  | EmptyString => EmptyString
  end.

Fixpoint trim_right (s : string) : string :=
  match s with
  | String c rest =>
      match trim_right rest with
      | EmptyString => if ascii_space c then EmptyString else String c EmptyString
      | kept => String c kept
      end
  | EmptyString => EmptyString
  end.

(** [strings.TrimSpace] on ASCII input. *)
Definition TrimSpace_ascii (s : string) : string :=
  trim_right (trim_left s).

(** ** Sample worlds *)

(** The schedule of the end-to-end example; the three fields that are
    not candidates are left open. *)
Definition example_schedule (sunset imsak midnight : string) : Timings :=
  mkTimings "05:30" "06:45" "12:15" "15:40" sunset "18:20" "19:45"
            imsak midnight.

Definition sample_timings : Timings := example_schedule "18:19" "05:20" "00:07".

(** A schedule in ascending order in which Dhuhr and Asr coincide. *)
Definition tied_timings : Timings :=
  mkTimings "05:30" "06:45" "12:15" "12:15" "18:19" "18:20" "19:45"
            "05:20" "00:07".

Definition world0 : World := mkWorld 0 0 0 0 [].

Definition const_env (now : string) (f : Timings + string) (line : string)
  : Env :=
  mkEnv (fun _ => now) (fun _ => f) (fun _ => false) (fun _ => line).


(** The clock reads "12:14" once and "12:15" from then on; the first
    fetch fails and the later ones return [sample_timings]; the reader
    delivers [line]. *)
Definition sample_env (line : string) : Env :=
  mkEnv (fun k => match k with O => "12:14" | S _ => "12:15" end)
        (fun k => match k with O => inr "timeout" | S _ => inl sample_timings end)
        (fun _ => false)
        (fun _ => line).

(** ** Vocabulary of the statements *)

(** The world after [c] more clock reads, [f] more fetches, [p] more
    pushes and [l] more lines read, with the effects [es] emitted. *)
Definition advance (c f p l : nat) (es : list Effect) (w : World) : World :=
  mkWorld (c + clock_reads w) (f + fetches w) (p + pushes w)
          (l + lines_read w) (trace w ++ es)%list.

(** The value of [url] at line 49. *)
Definition request_url : string :=
  "http://api.aladhan.com/v1/timingsByCity?city=Boynton Beach&country=United States&method=3".


(** What the match check of a poll cycle adds to the trace, when the
    cycle starts in [w] and fetches [timings]: the selector reads clock
    sample [clock_reads w], the check reads the one after it.  On a
    match: the note, and the log line if pushing it fails. *)
Definition cycle_alert (env : Env) (w : World) (timings : Timings)
  : list Effect :=
  let next := nextPrayerAt (now_HHMM env (clock_reads w)) timings in
  if (now_HHMM env (S (clock_reads w)) =? snd next)%string
  then Notify "Prayer Time" ("It's time for " ++ fst next ++ " prayer.")
         :: (if push_err env (pushes w) then [Log "Uh oh!"] else [])
  else [].

(** The error text of the [k]-th fetch, when it fails. *)
Definition fetch_error (env : Env) (k : nat) : string :=
  match fetch env k with
  | inr err => err
  | inl _ => ""
  end.

Definition fetch_fails (env : Env) (k : nat) : Prop :=
  exists err, fetch env k = inr err.

(** The trace of [n] poll cycles whose fetches, numbered from [from],
    all fail. *)
Fixpoint failed_cycles (env : Env) (from n : nat) : list Effect :=
  match n with
  | O => []
  | S k =>
      [ HttpGet request_url;
        Log (fetch_failed_line (fetch_error env from));
        Sleep Minute ] ++ failed_cycles env (S from) k
  end%list.

(** The command a pass of the command loop dispatches on: the line read
    at line 148, trimmed at line 149. *)
Definition command_read (env : Env) (TrimSpace : string -> string) (w : World)
  : string :=
  TrimSpace (stdin_line env (lines_read w)).

(** ** Vocabulary of the further properties *)

(** Whether a list of times is in ascending order, ties allowed. *)
Fixpoint ascending (ts : list string) : bool :=
  match ts with
  | a :: rest =>
      match rest with
      | b :: _ => (a <=? b)%string && ascending rest
      | [] => true
      end
  | [] => true
  end.

(** The text [time.Now().Format("15:04")] writes at hour [h] and minute
    [m]: two decimal digits each, zero-padded, with a colon between. *)
Definition digit (d : nat) : ascii := ascii_of_nat (48 + d).

Definition two_digits (n : nat) : string :=
  String (digit (n / 10)) (String (digit (n mod 10)) EmptyString).

Definition hhmm (h m : nat) : string := two_digits h ++ ":" ++ two_digits m.

Definition minute_of_day (h m : nat) : nat := 60 * h + m.

(** A named time of day, by hour and minute. *)
Record Slot : Type := mkSlot
  { slot_name : string;
    slot_hour : nat;
    slot_minute : nat }.

Definition valid_slot (e : Slot) : Prop :=
  slot_hour e < 24 /\ slot_minute e < 60.

(** The entry of the [prayers] slice for a slot whose time is written
    in the "15:04" layout. *)
Definition slot_prayer (e : Slot) : Prayer :=
  mkPrayer (slot_name e) (hhmm (slot_hour e) (slot_minute e)).

(** Whether slot [e] is chronologically after [h]:[m]. *)
Definition slot_after (h m : nat) (e : Slot) : bool :=
  (minute_of_day h m <? minute_of_day (slot_hour e) (slot_minute e))%nat.

(** The durations slept, the URLs requested and the exit codes in a
    trace, in order. *)
Definition sleeps (es : list Effect) : list Duration :=
  flat_map (fun e => match e with Sleep d => [d] | _ => [] end) es.

Definition requests (es : list Effect) : list string :=
  flat_map (fun e => match e with HttpGet u => [u] | _ => [] end) es.

Definition exits (es : list Effect) : list Z :=
  flat_map (fun e => match e with Exit c => [c] | _ => [] end) es.

(** The effects a pass of the poll loop may emit. *)
Definition poll_effect (e : Effect) : Prop :=
  match e with
  | HttpGet url => url = request_url
  | Log _ => True
  | Stdout _ => True
  | Notify title message =>
      title = "Prayer Time"
      /\ exists name,
          In name ["Fajr"; "Sunrise"; "Dhuhr"; "Asr"; "Maghrib"; "Isha"]
          /\ message = "It's time for " ++ name ++ " prayer."
  | Sleep d => d = 60000000000%Z
  | Table _ _ => False
  | Exit _ => False
  end.

(** The effects a pass of the command loop may emit before it exits. *)
Definition command_effect (e : Effect) : Prop :=
  match e with
  | HttpGet url => url = request_url
  | Log _ => True
  | Stdout _ => True
  | Table header data => header = ["Prayer"; "Time"] /\ length data = 6
  | Notify _ _ => False
  | Sleep _ => False
  | Exit _ => False
  end.

(** The trace of [n] passes of the command loop on lines that are no
    command. *)
Fixpoint invalid_passes (n : nat) : list Effect :=
  match n with
  | O => []
  | S k =>
      [Stdout prompt; Stdout ("Invalid command" ++ newline)]
        ++ invalid_passes k
  end%list.

(** Two schedules with the same six candidate times. *)
Definition same_candidates (t1 t2 : Timings) : Prop :=
  Fajr t1 = Fajr t2 /\ Sunrise t1 = Sunrise t2 /\ Dhuhr t1 = Dhuhr t2
  /\ Asr t1 = Asr t2 /\ Maghrib t1 = Maghrib t2 /\ Isha t1 = Isha t2.

(** What [main] works with after its fetch: the fetched schedule, or
    [Timings{}] when the fetch failed. *)
Definition startup_timings (env : Env) (w : World) : Timings :=
  match fetch env (fetches w) with
  | inl timings => timings
  | inr _ => Timings_zero
  end.

(** ** Go's string order *)

Module StrOrd.

Lemma compare_refl (s : string) : (s ?= s)%string = Eq.
Proof.
  induction s as [|c s IH]; simpl; [reflexivity|].
  unfold Ascii.compare. now rewrite N.compare_refl.
Qed.

Lemma compare_lt_trans (a b c : string) :
  (a ?= b)%string = Lt -> (b ?= c)%string = Lt -> (a ?= c)%string = Lt.
Proof.
  revert b c.
  induction a as [|x a IH]; intros [|y b] [|z c]; simpl; try congruence.
  unfold Ascii.compare.
  destruct (N.compare_spec (N_of_ascii x) (N_of_ascii y));
    destruct (N.compare_spec (N_of_ascii y) (N_of_ascii z));
    destruct (N.compare_spec (N_of_ascii x) (N_of_ascii z));
    try discriminate; try lia; eauto.
Qed.

Lemma ltb_irrefl (s : string) : (s <? s)%string = false.
Proof. unfold String.ltb. now rewrite compare_refl. Qed.

Lemma ltb_trans (a b c : string) :
  (a <? b)%string = true -> (b <? c)%string = true -> (a <? c)%string = true.
Proof.
  unfold String.ltb. intros H1 H2.
  rewrite (compare_lt_trans a b c); [reflexivity | |].
  - destruct (a ?= b)%string; congruence.
  - destruct (b ?= c)%string; congruence.
Qed.

Lemma ltb_asym (a b : string) :
  (a <? b)%string = true -> (b <? a)%string = false.
Proof.
  unfold String.ltb. rewrite (String.compare_antisym b a).
  destruct (a ?= b)%string; simpl; congruence.
Qed.

Lemma ltb_neq (a b : string) : (a <? b)%string = true -> a <> b.
Proof. intros H E. subst. rewrite ltb_irrefl in H. discriminate. Qed.

(** [a < b] is the negation of [b <= a]. *)
Lemma ltb_negb_leb (a b : string) : (a <? b)%string = negb (b <=? a)%string.
Proof.
  unfold String.ltb, String.leb. rewrite (String.compare_antisym b a).
  destruct (a ?= b)%string; reflexivity.
Qed.

(** [a < b] and [b <= c] give [a < c]. *)
Lemma ltb_leb_trans (a b c : string) :
  (a <? b)%string = true -> (c <? b)%string = false -> (a <? c)%string = true.
Proof.
  intros Hab Hcb. unfold String.ltb in Hcb.
  destruct (c ?= b)%string eqn:E; try discriminate.
  - apply String.compare_eq_iff in E. now subst.
  - apply (ltb_trans a b c Hab). unfold String.ltb.
    rewrite String.compare_antisym, E. reflexivity.
Qed.

(** The head of a strictly increasing list is below all that follow. *)
Lemma increasing_head (a : string) (ts : list string) :
  increasing (a :: ts) = true ->
  forall b, In b ts -> (a <? b)%string = true.
Proof.
  revert a. induction ts as [|c ts IH]; intros a H b Hb; [destruct Hb|].
  cbn [increasing] in H. apply andb_prop in H. destruct H as [Hac Hrest].
  destruct Hb as [<-|Hb]; [exact Hac|].
  apply (ltb_trans a c b Hac). now apply IH.
Qed.

Lemma increasing_tail (a : string) (ts : list string) :
  increasing (a :: ts) = true -> increasing ts = true.
Proof.
  destruct ts as [|c ts]; [reflexivity|].
  cbn [increasing]. intros H. now apply andb_prop in H.
Qed.

End StrOrd.

(** ** Running the primitives *)

Lemma advance_advance c1 f1 p1 l1 es1 c2 f2 p2 l2 es2 w :
  advance c2 f2 p2 l2 es2 (advance c1 f1 p1 l1 es1 w)
  = advance (c2 + c1) (f2 + f1) (p2 + p1) (l2 + l1) (es1 ++ es2)%list w.
Proof.
  unfold advance. simpl. rewrite !Nat.add_assoc, app_assoc. reflexivity.
Qed.

Lemma clock_reads_advance c f p l es w :
  clock_reads (advance c f p l es w) = c + clock_reads w.
Proof. reflexivity. Qed.

Lemma fetches_advance c f p l es w :
  fetches (advance c f p l es w) = f + fetches w.
Proof. reflexivity. Qed.

Lemma pushes_advance c f p l es w :
  pushes (advance c f p l es w) = p + pushes w.
Proof. reflexivity. Qed.

Lemma lines_read_advance c f p l es w :
  lines_read (advance c f p l es w) = l + lines_read w.
Proof. reflexivity. Qed.

Lemma trace_advance c f p l es w :
  trace (advance c f p l es w) = (trace w ++ es)%list.
Proof. reflexivity. Qed.

Lemma alerts_app (tr es : list Effect) :
  alerts (tr ++ es) = (alerts tr ++ alerts es)%list.
Proof. apply filter_app. Qed.

Lemma bind_run {A B : Type} (c : M A) (k : A -> M B) (w : World) :
  runState (bind c k) w
  = runState (k (fst (runState c w))) (snd (runState c w)).
Proof. simpl. destruct (runState c w). reflexivity. Qed.

Lemma ret_run {A : Type} (a : A) (w : World) :
  runState (ret a : M A) w = (a, w).
Proof. reflexivity. Qed.

Lemma emit_run (e : Effect) (w : World) :
  runState (emit e) w = (tt, advance 0 0 0 0 [e] w).
Proof. reflexivity. Qed.

Lemma time_Now_Format_run env w :
  runState (time_Now_Format env) w
  = (now_HHMM env (clock_reads w), advance 1 0 0 0 [] w).
Proof. unfold advance. rewrite app_nil_r. reflexivity. Qed.

Lemma ReadString_run env w :
  runState (ReadString env) w
  = (stdin_line env (lines_read w), advance 0 0 0 1 [] w).
Proof. unfold advance. rewrite app_nil_r. reflexivity. Qed.

Lemma getPrayerTimes_run env w :
  runState (getPrayerTimes env) w
  = (match fetch env (fetches w) with
     | inl timings => (timings, None)
     | inr err => (Timings_zero, Some err)
     end, advance 0 1 0 0 [HttpGet request_url] w).
Proof.
  unfold getPrayerTimes. simpl. destruct (fetch env (fetches w)); reflexivity.
Qed.

Lemma getNextPrayerTime_run env timings w :
  runState (getNextPrayerTime env timings) w
  = (nextPrayerAt (now_HHMM env (clock_reads w)) timings, advance 1 0 0 0 [] w).
Proof.
  unfold getNextPrayerTime. rewrite bind_run, time_Now_Format_run. reflexivity.
Qed.

Lemma showNotification_run env title message w :
  runState (showNotification env title message) w
  = (tt, advance 0 0 1 0
           (Notify title message
              :: if push_err env (pushes w) then [Log "Uh oh!"] else []) w).
Proof.
  unfold showNotification. simpl.
  destruct (push_err env (pushes w)); unfold advance; simpl;
    rewrite <- ?app_assoc; reflexivity.
Qed.

Lemma printTable_run header data w :
  runState (printTable header data) w
  = (tt, advance 0 0 0 0 [Table header data] w).
Proof. reflexivity. Qed.

Ltac run_step :=
  rewrite ?bind_run, ?ret_run, ?emit_run, ?time_Now_Format_run,
    ?ReadString_run, ?getPrayerTimes_run, ?getNextPrayerTime_run,
    ?showNotification_run, ?printTable_run;
  rewrite ?advance_advance, ?clock_reads_advance, ?fetches_advance,
    ?pushes_advance, ?lines_read_advance;
  cbn [fst snd Nat.add].

(** ** The poll loop, pass by pass *)

Lemma checkPrayerTimes_body_failed env w err :
  fetch env (fetches w) = inr err ->
  runState (checkPrayerTimes_body env) w
  = (Next, advance 0 1 0 0
             [HttpGet request_url; Log (fetch_failed_line err); Sleep Minute] w).
Proof.
  intros Hf. unfold checkPrayerTimes_body.
  rewrite bind_run, getPrayerTimes_run, Hf. cbn [fst snd].
  repeat run_step. reflexivity.
Qed.

Lemma checkPrayerTimes_body_fetched env w timings :
  fetch env (fetches w) = inl timings ->
  let next := nextPrayerAt (now_HHMM env (clock_reads w)) timings in
  runState (checkPrayerTimes_body env) w
  = (Next, advance 2 1 (length (alerts (cycle_alert env w timings))) 0
             ([HttpGet request_url; Stdout (status_line (fst next) (snd next))]
                ++ cycle_alert env w timings
                ++ [Sleep (1 * Minute)%Z]) w).
Proof.
  intros Hf. cbv zeta. unfold checkPrayerTimes_body, cycle_alert.
  rewrite bind_run, getPrayerTimes_run, Hf. cbn [fst snd].
  rewrite bind_run, getNextPrayerTime_run. cbn [fst snd].
  destruct (nextPrayerAt _ timings) as [nextPrayer nextTime].
  cbn [fst snd]. do 3 run_step.
  destruct (_ =? nextTime)%string.
  - repeat run_step. destruct (push_err env (pushes w)); reflexivity.
  - repeat run_step. reflexivity.
Qed.

Lemma for_ever_step (body : M Ctl) (fuel : nat) (w : World) :
  runState (for_ever (S fuel) body) w
  = match fst (runState body w) with
    | Next => runState (for_ever fuel body) (snd (runState body w))
    | Halt => (Halt, snd (runState body w))
    end.
Proof.
  cbn [for_ever]. rewrite bind_run.
  destruct (fst (runState body w)); reflexivity.
Qed.

Lemma checkPrayerTimes_body_next env w :
  fst (runState (checkPrayerTimes_body env) w) = Next.
Proof.
  destruct (fetch env (fetches w)) as [timings|err] eqn:Hf.
  - now rewrite (checkPrayerTimes_body_fetched env w timings Hf).
  - now rewrite (checkPrayerTimes_body_failed env w err Hf).
Qed.

Lemma checkPrayerTimes_never_halts env fuel :
  forall w, fst (runState (checkPrayerTimes env fuel) w) = Next.
Proof.
  unfold checkPrayerTimes.
  induction fuel as [|fuel IH]; intros w; [reflexivity|].
  rewrite for_ever_step, checkPrayerTimes_body_next. apply IH.
Qed.

Lemma checkPrayerTimes_all_failed env n :
  forall w,
    (forall k, k < n -> fetch_fails env (k + fetches w)) ->
    runState (checkPrayerTimes env n) w
    = (Next, advance 0 n 0 0 (failed_cycles env (fetches w) n) w).
Proof.
  unfold checkPrayerTimes.
  induction n as [|n IH]; intros w H.
  - unfold advance. simpl. rewrite app_nil_r. now destruct w.
  - destruct (H 0 (Nat.lt_0_succ n)) as [err Herr]. simpl in Herr.
    rewrite for_ever_step, (checkPrayerTimes_body_failed env w err Herr).
    cbn [fst snd]. rewrite IH.
    + rewrite advance_advance, fetches_advance. cbn [failed_cycles Nat.add].
      unfold fetch_error. rewrite Herr, Nat.add_1_r. reflexivity.
    + intros k Hk. rewrite fetches_advance.
      replace (k + (1 + fetches w)) with (S k + fetches w) by lia.
      apply H. lia.
Qed.

Lemma failed_cycles_fixed_delay env n :
  forall from d, In (Sleep d) (failed_cycles env from n) -> d = Minute.
Proof.
  induction n as [|n IH]; intros from d H; [destruct H|].
  cbn [failed_cycles app] in H.
  destruct H as [H|[H|[H|H]]]; try discriminate H.
  - now injection H.
  - exact (IH _ _ H).
Qed.

(** ** The scan *)


Lemma scan_none (now : string) (ps : list Prayer) :
  (forall p, In p ps -> (now <? Time p)%string = false) -> scan now ps = None.
Proof.
  induction ps as [|h ps IH]; intros H; simpl; [reflexivity|].
  rewrite (H h (or_introl eq_refl)). apply IH. intros p Hp. apply H. now right.
Qed.

Lemma scan_none_inv (now : string) (ps : list Prayer) :
  scan now ps = None ->
  forall p, In p ps -> (now <? Time p)%string = false.
Proof.
  induction ps as [|h ps IH]; simpl; intros H p Hp; [destruct Hp|].
  destruct (now <? Time h)%string eqn:E; [discriminate|].
  destruct Hp as [<-|Hp]; [exact E | now apply IH].
Qed.

Lemma scan_some_inv (now : string) (ps : list Prayer) (r : string * string) :
  scan now ps = Some r ->
  exists p, In p ps /\ r = (Name p, Time p) /\ (now <? Time p)%string = true.
Proof.
  induction ps as [|h ps IH]; simpl; [discriminate|].
  destruct (now <? Time h)%string eqn:E.
  - intros [= <-]. exists h. auto.
  - intros H. destruct (IH H) as (p & Hp & Hr & Hlt). exists p. auto.
Qed.

(** In a strictly increasing list, a scan at the time of event [i] stops
    at event [i+1], and falls out of the loop when [i] is the last. *)
Lemma scan_at_equal (ps : list Prayer) :
  forall i p,
    increasing (map Time ps) = true ->
    nth_error ps i = Some p ->
    scan (Time p) ps
    = match nth_error ps (S i) with
      | Some q => Some (Name q, Time q)
      | None => None
      end.
Proof.
  induction ps as [|h ps IH]; intros i p Hinc Hi.
  - destruct i; discriminate.
  - destruct i as [|i]; cbn [nth_error] in Hi.
    + injection Hi as ->. cbn [scan]. rewrite StrOrd.ltb_irrefl.
      destruct ps as [|q ps]; [reflexivity|].
      cbn [map increasing] in Hinc. apply andb_prop in Hinc.
      cbn [scan nth_error]. now rewrite (proj1 Hinc).
    + cbn [map] in Hinc. cbn [scan].
      assert (Hlt : (Time h <? Time p)%string = true).
      { apply (StrOrd.increasing_head _ _ Hinc).
        apply in_map. exact (nth_error_In _ _ Hi). }
      rewrite (StrOrd.ltb_asym _ _ Hlt).
      rewrite (IH i p (StrOrd.increasing_tail _ _ Hinc) Hi). reflexivity.
Qed.

(** ** The command loop, pass by pass *)

Section Commands.

Variable env : Env.
Variable TrimSpace : string -> string.
Variable w : World.

Ltac read_command :=
  unfold handleUserInput_body;
  rewrite bind_run, emit_run; cbn [fst snd];
  rewrite bind_run, ReadString_run; cbn [fst snd];
  rewrite lines_read_advance; cbn [Nat.add];
  fold (command_read env TrimSpace w).

Lemma handleUserInput_body_next_fetched timings :
  command_read env TrimSpace w = "next" ->
  fetch env (fetches w) = inl timings ->
  let next := nextPrayerAt (now_HHMM env (clock_reads w)) timings in
  runState (handleUserInput_body env TrimSpace) w
  = (Next, advance 1 1 0 1
             [ Stdout prompt; HttpGet request_url;
               Stdout (status_line (fst next) (snd next)) ] w).
Proof.
  intros Hc Hf. cbv zeta. read_command. rewrite Hc.
  cbn [String.eqb Ascii.eqb Bool.eqb andb].
  do 2 run_step. rewrite Hf. cbn [fst snd]. do 2 run_step.
  destruct (nextPrayerAt _ timings) as [nextPrayer nextTime].
  repeat run_step. reflexivity.
Qed.

Lemma handleUserInput_body_next_failed err :
  command_read env TrimSpace w = "next" ->
  fetch env (fetches w) = inr err ->
  runState (handleUserInput_body env TrimSpace) w
  = (Next, advance 0 1 0 1
             [ Stdout prompt; HttpGet request_url;
               Log (fetch_failed_line err) ] w).
Proof.
  intros Hc Hf. read_command. rewrite Hc.
  cbn [String.eqb Ascii.eqb Bool.eqb andb].
  do 2 run_step. rewrite Hf. cbn [fst snd]. repeat run_step. reflexivity.
Qed.

Lemma handleUserInput_body_all_fetched timings :
  command_read env TrimSpace w = "all" ->
  fetch env (fetches w) = inl timings ->
  runState (handleUserInput_body env TrimSpace) w
  = (Next, advance 0 1 0 1
             [ Stdout prompt; HttpGet request_url;
               Table ["Prayer"; "Time"]
                     [ ["Fajr"; Fajr timings];
                       ["Sunrise"; Sunrise timings];
                       ["Dhuhr"; Dhuhr timings];
                       ["Asr"; Asr timings];
                       ["Maghrib"; Maghrib timings];
                       ["Isha"; Isha timings] ] ] w).
Proof.
  intros Hc Hf. read_command. rewrite Hc.
  cbn [String.eqb Ascii.eqb Bool.eqb andb].
  do 2 run_step. rewrite Hf. cbn [fst snd]. repeat run_step. reflexivity.
Qed.

Lemma handleUserInput_body_all_failed err :
  command_read env TrimSpace w = "all" ->
  fetch env (fetches w) = inr err ->
  runState (handleUserInput_body env TrimSpace) w
  = (Next, advance 0 1 0 1
             [ Stdout prompt; HttpGet request_url;
               Log (fetch_failed_line err) ] w).
Proof.
  intros Hc Hf. read_command. rewrite Hc.
  cbn [String.eqb Ascii.eqb Bool.eqb andb].
  do 2 run_step. rewrite Hf. cbn [fst snd]. repeat run_step. reflexivity.
Qed.

Lemma handleUserInput_body_q :
  command_read env TrimSpace w = "q" ->
  runState (handleUserInput_body env TrimSpace) w
  = (Halt, advance 0 0 0 1 [Stdout prompt; Exit 0] w).
Proof.
  intros Hc. read_command. rewrite Hc.
  cbn [String.eqb Ascii.eqb Bool.eqb andb].
  repeat run_step. reflexivity.
Qed.

Lemma handleUserInput_body_invalid :
  command_read env TrimSpace w <> "next" ->
  command_read env TrimSpace w <> "all" ->
  command_read env TrimSpace w <> "q" ->
  runState (handleUserInput_body env TrimSpace) w
  = (Next, advance 0 0 0 1
             [Stdout prompt; Stdout ("Invalid command" ++ newline)] w).
Proof.
  intros Hn Ha Hq. read_command.
  rewrite (proj2 (String.eqb_neq _ _) Hn), (proj2 (String.eqb_neq _ _) Ha),
    (proj2 (String.eqb_neq _ _) Hq).
  repeat run_step. reflexivity.
Qed.

(** Every pass opens with the prompt. *)
Lemma handleUserInput_body_prompts :
  exists c f es,
    snd (runState (handleUserInput_body env TrimSpace) w)
    = advance c f 0 1 (Stdout prompt :: es) w.
Proof.
  destruct (String.eqb_spec (command_read env TrimSpace w) "next") as [Hn|Hn];
    [|destruct (String.eqb_spec (command_read env TrimSpace w) "all") as [Ha|Ha];
      [|destruct (String.eqb_spec (command_read env TrimSpace w) "q") as [Hq|Hq]]].
  - destruct (fetch env (fetches w)) as [timings|err] eqn:Hf.
    + rewrite (handleUserInput_body_next_fetched timings Hn Hf).
      cbn [snd]. do 3 eexists. reflexivity.
    + rewrite (handleUserInput_body_next_failed err Hn Hf).
      cbn [snd]. do 3 eexists. reflexivity.
  - destruct (fetch env (fetches w)) as [timings|err] eqn:Hf.
    + rewrite (handleUserInput_body_all_fetched timings Ha Hf).
      cbn [snd]. do 3 eexists. reflexivity.
    + rewrite (handleUserInput_body_all_failed err Ha Hf).
      cbn [snd]. do 3 eexists. reflexivity.
  - rewrite (handleUserInput_body_q Hq).
      cbn [snd]. do 3 eexists. reflexivity.
  - rewrite (handleUserInput_body_invalid Hn Ha Hq).
      cbn [snd]. do 3 eexists. reflexivity.
Qed.

End Commands.

(** ** Claims on the selector *)



(** C2, refuted as worded: on the ascending schedule in which Dhuhr and
    Asr are both 12:15, the clock sample 12:15 equals the time of event
    2 (Dhuhr), event 3 is Asr, and the selector returns Maghrib. *)
Lemma equal_time_selects_successor_refuted :
  nth_error (prayers tied_timings) 2 = Some (mkPrayer "Dhuhr" "12:15")
  /\ Time (mkPrayer "Dhuhr" "12:15")
     = now_HHMM (const_env "12:15" (inl tied_timings) "") (clock_reads world0)
  /\ nth_error (prayers tied_timings) (S 2 mod 6) = Some (mkPrayer "Asr" "12:15")
  /\ fst (runState (getNextPrayerTime
                      (const_env "12:15" (inl tied_timings) "") tied_timings)
                   world0)
     = ("Maghrib", "18:20")
  /\ fst (runState (getNextPrayerTime
                      (const_env "12:15" (inl tied_timings) "") tied_timings)
                   world0)
     <> (Name (mkPrayer "Asr" "12:15"), Time (mkPrayer "Asr" "12:15")).
Proof.
  repeat split; try reflexivity.
  vm_compute. discriminate.
Qed.

(** C2, amended: for every schedule whose six times are strictly
    increasing and every index i, if the clock sample equals the time of
    event i then the selector returns event i+1, or event 0 when i is
    the last index, and the time it returns differs from the sample. *)
Theorem equal_time_selects_successor
        (env : Env) (timings : Timings) (w : World) (i : nat) (p q : Prayer) :
  strictly_increasing timings = true ->
  nth_error (prayers timings) i = Some p ->
  Time p = now_HHMM env (clock_reads w) ->
  nth_error (prayers timings) (S i mod 6) = Some q ->
  fst (runState (getNextPrayerTime env timings) w) = (Name q, Time q)
  /\ snd (fst (runState (getNextPrayerTime env timings) w))
     <> now_HHMM env (clock_reads w).
Proof.
  intros Hinc Hi Hnow Hq.
  rewrite getNextPrayerTime_run. cbn [fst]. unfold nextPrayerAt.
  rewrite <- Hnow, (scan_at_equal (prayers timings) i p Hinc Hi).
  assert (Hlast : (Fajr timings <? Isha timings)%string = true).
  { apply (StrOrd.increasing_head _ _ Hinc). simpl. auto 10. }
  unfold strictly_increasing in Hinc. cbn [prayers map increasing Time] in Hinc.
  repeat (apply andb_prop in Hinc; destruct Hinc as [? Hinc]).
  destruct i as [|[|[|[|[|[|i]]]]]]; cbn in Hi, Hq;
    [ .. | destruct i; discriminate Hi ];
    injection Hi as <-; injection Hq as <-; cbn;
    (split;
     [ reflexivity
     | first [ apply not_eq_sym, StrOrd.ltb_neq; assumption
             | apply StrOrd.ltb_neq; assumption ] ]).
Qed.

Lemma equal_time_selects_successor_witness :
  fst (runState (getNextPrayerTime (const_env "12:15" (inl sample_timings) "")
                                   sample_timings) world0)
  = ("Asr", "15:40")
  /\ snd (fst (runState (getNextPrayerTime
                           (const_env "12:15" (inl sample_timings) "")
                           sample_timings) world0))
     <> "12:15".
Proof.
  apply (equal_time_selects_successor
           (const_env "12:15" (inl sample_timings) "") sample_timings world0
           2 (mkPrayer "Dhuhr" "12:15") (mkPrayer "Asr" "15:40"));
    reflexivity.
Defined.

(** C3: when the clock sample is greater than or equal to every one of
    the six times, the selector returns the first event's name, Fajr,
    paired with the schedule's own Fajr time. *)
Theorem wrap_returns_first_event (env : Env) (timings : Timings) (w : World) :
  (forall p, In p (prayers timings) ->
             (Time p <=? now_HHMM env (clock_reads w))%string = true) ->
  exists p0,
    nth_error (prayers timings) 0 = Some p0
    /\ fst (runState (getNextPrayerTime env timings) w) = (Name p0, Time p0)
    /\ (Name p0, Time p0) = ("Fajr", Fajr timings).
Proof.
  intros H. exists (mkPrayer "Fajr" (Fajr timings)).
  split; [reflexivity|]. split; [|reflexivity].
  rewrite getNextPrayerTime_run. cbn [fst]. unfold nextPrayerAt.
  rewrite scan_none; [reflexivity|].
  intros p Hp. rewrite StrOrd.ltb_negb_leb, (H p Hp). reflexivity.
Qed.

Lemma wrap_returns_first_event_witness :
  exists p0,
    nth_error (prayers sample_timings) 0 = Some p0
    /\ fst (runState (getNextPrayerTime
                        (const_env "20:00" (inl sample_timings) "")
                        sample_timings) world0)
       = (Name p0, Time p0)
    /\ (Name p0, Time p0) = ("Fajr", "05:30").
Proof.
  apply (wrap_returns_first_event
           (const_env "20:00" (inl sample_timings) "") sample_timings world0).
  intros p Hp. simpl in Hp.
  destruct Hp as [<-|[<-|[<-|[<-|[<-|[<-|[]]]]]]]; reflexivity.
Defined.

(** C5: on the schedule Fajr 05:30, Sunrise 06:45, Dhuhr 12:15, Asr
    15:40, Maghrib 18:20, Isha 19:45 the selector returns (Dhuhr, 12:15)
    at 07:00, (Fajr, 05:30) at 20:00 and (Isha, 19:45) at 18:20, where
    it does not select Maghrib although 18:20 is Maghrib's time. *)
Theorem end_to_end_example (sunset imsak midnight : string)
        (f : Timings + string) (line : string) (w : World) :
  let schedule := example_schedule sunset imsak midnight in
  let select now :=
    fst (runState (getNextPrayerTime (const_env now f line) schedule) w) in
  select "07:00" = ("Dhuhr", "12:15")
  /\ select "20:00" = ("Fajr", "05:30")
  /\ select "18:20" = ("Isha", "19:45")
  /\ fst (select "18:20") <> "Maghrib"
  /\ Maghrib schedule = "18:20".
Proof.
  cbv beta zeta. rewrite !getNextPrayerTime_run. cbn [fst].
  repeat split; try reflexivity.
  vm_compute. discriminate.
Qed.

(** C7: the selector has no hidden state and no side effect.  Its result
    is determined by the clock sample it reads and the schedule: two
    calls, in any two worlds, that read the same sample for the same
    schedule return the same pair.  A call always returns, and changes
    nothing in the world but the count of clock reads. *)
Theorem selector_is_pure :
  (forall env1 env2 w1 w2 timings,
      now_HHMM env1 (clock_reads w1) = now_HHMM env2 (clock_reads w2) ->
      fst (runState (getNextPrayerTime env1 timings) w1)
      = fst (runState (getNextPrayerTime env2 timings) w2))
  /\ (forall env timings w,
         let w' := snd (runState (getNextPrayerTime env timings) w) in
         trace w' = trace w
         /\ fetches w' = fetches w
         /\ pushes w' = pushes w
         /\ lines_read w' = lines_read w
         /\ clock_reads w' = S (clock_reads w)).
Proof.
  split.
  - intros env1 env2 w1 w2 timings H.
    rewrite !getNextPrayerTime_run. cbn [fst]. now rewrite H.
  - intros env timings w. cbv zeta. rewrite getNextPrayerTime_run.
    cbn [snd]. rewrite trace_advance, app_nil_r. repeat split.
Qed.

Lemma selector_is_pure_witness :
  fst (runState (getNextPrayerTime (sample_env "next") sample_timings)
                (mkWorld 1 0 0 0 []))
  = fst (runState (getNextPrayerTime (const_env "12:15" (inr "down") "q")
                                     sample_timings)
                  (mkWorld 7 3 1 2 [Sleep Minute])).
Proof.
  apply (proj1 selector_is_pure). reflexivity.
Defined.

(** C9: for every [Timings] value the selector returns a result, and the
    result is one of the six candidates: its name is Fajr, Sunrise,
    Dhuhr, Asr, Maghrib or Isha (never Sunset, Imsak or Midnight) and
    its time is the value of that field.  On the zero value it returns
    (Fajr, empty string), which is what [main] announces when its first
    fetch fails. *)
Theorem selector_total_on_any_timings :
  (forall env timings w,
      let r := fst (runState (getNextPrayerTime env timings) w) in
      In r [ ("Fajr", Fajr timings); ("Sunrise", Sunrise timings);
             ("Dhuhr", Dhuhr timings); ("Asr", Asr timings);
             ("Maghrib", Maghrib timings); ("Isha", Isha timings) ]
      /\ In (fst r) ["Fajr"; "Sunrise"; "Dhuhr"; "Asr"; "Maghrib"; "Isha"]
      /\ ~ In (fst r) ["Sunset"; "Imsak"; "Midnight"])
  /\ (forall env w,
         fst (runState (getNextPrayerTime env Timings_zero) w) = ("Fajr", ""))
  /\ (forall env w err,
         fetch env (fetches w) = inr err ->
         alerts (trace (snd (runState (main_startup env) w)))
         = (alerts (trace w)
              ++ [ Notify "Adhan" "Adhan app is active!";
                   Notify "Adhan" "Next Prayer is : Fajr at: " ])%list).
Proof.
  assert (Hzero : forall s, nextPrayerAt s Timings_zero = ("Fajr", "")).
  { intros s. unfold nextPrayerAt. rewrite scan_none; [reflexivity|].
    intros p Hp. simpl in Hp.
    destruct Hp as [<-|[<-|[<-|[<-|[<-|[<-|[]]]]]]]; destruct s; reflexivity. }
  split; [|split].
  - intros env timings w r.
    assert (Hin : In r [ ("Fajr", Fajr timings); ("Sunrise", Sunrise timings);
                         ("Dhuhr", Dhuhr timings); ("Asr", Asr timings);
                         ("Maghrib", Maghrib timings); ("Isha", Isha timings) ]).
    { subst r. rewrite getNextPrayerTime_run. cbn [fst]. unfold nextPrayerAt.
      destruct (scan _ (prayers timings)) as [r|] eqn:E.
      - apply scan_some_inv in E. destruct E as (p & Hp & -> & _).
        simpl in Hp.
        destruct Hp as [<-|[<-|[<-|[<-|[<-|[<-|[]]]]]]]; simpl; auto 10.
      - simpl. auto. }
    split; [exact Hin|].
    simpl in Hin.
    destruct Hin as [<-|[<-|[<-|[<-|[<-|[<-|[]]]]]]]; simpl;
      (split; [auto 10 | intros [H|[H|[H|[]]]]; discriminate H]).
  - intros env w. rewrite getNextPrayerTime_run. cbn [fst]. apply Hzero.
  - intros env w err Hf. unfold main_startup.
    do 3 run_step. rewrite Hf. cbn [fst snd]. repeat run_step.
    rewrite Hzero. repeat run_step.
    rewrite trace_advance, alerts_app. f_equal.
    destruct (push_err env (pushes w)), (push_err env (S (pushes w)));
      reflexivity.
Qed.

Lemma selector_total_on_any_timings_witness :
  alerts (trace (snd (runState (main_startup (sample_env "q")) world0)))
  = [ Notify "Adhan" "Adhan app is active!";
      Notify "Adhan" "Next Prayer is : Fajr at: " ].
Proof.
  apply (proj2 (proj2 selector_total_on_any_timings)
           (sample_env "q") world0 "timeout").
  reflexivity.
Defined.

(** ** Claims on the poll loop *)

(** C4: in a poll cycle that fetched a schedule, the alert sink is
    invoked exactly when the clock sample taken at the match check
    equals the time of the selected event; it is then invoked once, with
    the title "Prayer Time" and the message "It's time for <name>
    prayer." for the selected name.  When the two differ, and in a cycle
    whose fetch failed, no alert is dispatched. *)
Theorem alert_iff_exact_match (env : Env) (w : World) :
  let w' := snd (runState (checkPrayerTimes_body env) w) in
  (forall timings,
      fetch env (fetches w) = inl timings ->
      let next := nextPrayerAt (now_HHMM env (clock_reads w)) timings in
      let now' := now_HHMM env (S (clock_reads w)) in
      (exists es,
          trace w'
          = (trace w
               ++ [HttpGet request_url; Stdout (status_line (fst next) (snd next))]
               ++ es ++ [Sleep (1 * Minute)%Z])%list
          /\ alerts es = alerts (cycle_alert env w timings))
      /\ (now' = snd next ->
          alerts (trace w')
          = (alerts (trace w)
               ++ [Notify "Prayer Time"
                          ("It's time for " ++ fst next ++ " prayer.")])%list)
      /\ (now' <> snd next -> alerts (trace w') = alerts (trace w)))
  /\ (forall err,
         fetch env (fetches w) = inr err ->
         alerts (trace w') = alerts (trace w)).
Proof.
  cbv zeta. split.
  - intros timings Hf.
    rewrite (checkPrayerTimes_body_fetched env w timings Hf). cbn [snd].
    rewrite trace_advance, alerts_app. split; [eauto|].
    unfold cycle_alert. split; intros H.
    + rewrite (proj2 (String.eqb_eq _ _) H).
      destruct (push_err env (pushes w)); reflexivity.
    + rewrite (proj2 (String.eqb_neq _ _) H). cbn. now rewrite app_nil_r.
  - intros err Hf.
    rewrite (checkPrayerTimes_body_failed env w err Hf). cbn [snd].
    rewrite trace_advance, alerts_app. cbn. now rewrite app_nil_r.
Qed.

Lemma alert_iff_exact_match_witness :
  alerts (trace (snd (runState (checkPrayerTimes_body (sample_env ""))
                               (mkWorld 0 1 0 0 []))))
  = [Notify "Prayer Time" "It's time for Dhuhr prayer."]
  /\ alerts (trace (snd (runState (checkPrayerTimes_body (sample_env ""))
                                  (mkWorld 1 1 0 0 []))))
     = []
  /\ alerts (trace (snd (runState (checkPrayerTimes_body (sample_env ""))
                                  world0)))
     = [].
Proof.
  split; [|split].
  - apply (proj1 (proj2 (proj1 (alert_iff_exact_match
                                  (sample_env "") (mkWorld 0 1 0 0 []))
                               sample_timings eq_refl))).
    reflexivity.
  - apply (proj2 (proj2 (proj1 (alert_iff_exact_match
                                  (sample_env "") (mkWorld 1 1 0 0 []))
                               sample_timings eq_refl))).
    vm_compute. discriminate.
  - apply (proj2 (alert_iff_exact_match (sample_env "") world0) "timeout").
    reflexivity.
Defined.

(** C6: a cycle whose fetch fails logs the failure, sleeps one minute
    and goes back to the top of the loop, where the fetch is made again.
    However many fetches fail in a row, the loop is still running after
    them, having logged each failure and slept exactly one minute after
    each; no run of the loop, whatever the fetches return, ends it; and
    when the fetch after a failed one succeeds, that cycle goes on to
    the selection and reports it. *)
Theorem fetch_failure_retried_forever :
  (forall env w err,
      fetch env (fetches w) = inr err ->
      runState (checkPrayerTimes_body env) w
      = (Next, advance 0 1 0 0
                 [ HttpGet request_url; Log (fetch_failed_line err);
                   Sleep Minute ] w))
  /\ (forall env w n,
         (forall k, k < n -> fetch_fails env (k + fetches w)) ->
         runState (checkPrayerTimes env n) w
         = (Next, advance 0 n 0 0 (failed_cycles env (fetches w) n) w))
  /\ (forall env from n d,
         In (Sleep d) (failed_cycles env from n) -> d = 60000000000%Z)
  /\ (forall env fuel w, fst (runState (checkPrayerTimes env fuel) w) = Next)
  /\ (forall env w err timings,
         fetch env (fetches w) = inr err ->
         fetch env (S (fetches w)) = inl timings ->
         let next := nextPrayerAt (now_HHMM env (clock_reads w)) timings in
         exists p es,
           runState (checkPrayerTimes env 2) w
           = (Next, advance 2 2 p 0
                      ([ HttpGet request_url; Log (fetch_failed_line err);
                         Sleep Minute;
                         HttpGet request_url;
                         Stdout (status_line (fst next) (snd next)) ] ++ es) w)).
Proof.
  split; [exact checkPrayerTimes_body_failed|].
  split; [intros env w n; apply checkPrayerTimes_all_failed|].
  split; [intros env from n d; apply failed_cycles_fixed_delay|].
  split; [exact checkPrayerTimes_never_halts|].
  intros env w err timings Hf1 Hf2. cbv zeta. unfold checkPrayerTimes.
  rewrite for_ever_step, (checkPrayerTimes_body_failed env w err Hf1).
  cbn [fst snd].
  rewrite for_ever_step, (checkPrayerTimes_body_fetched _ _ timings);
    [|rewrite fetches_advance; exact Hf2].
  cbn [fst snd for_ever]. rewrite ret_run, advance_advance.
  rewrite clock_reads_advance. cbn [Nat.add app].
  do 2 eexists. reflexivity.
Qed.

Lemma fetch_failure_retried_forever_witness :
  runState (checkPrayerTimes_body (sample_env "")) world0
  = (Next, advance 0 1 0 0
             [ HttpGet request_url;
               Log "Failed to fetch prayer times: timeout";
               Sleep Minute ] world0)
  /\ runState (checkPrayerTimes (const_env "07:00" (inr "timeout") "") 3) world0
     = (Next, advance 0 3 0 0
                (failed_cycles (const_env "07:00" (inr "timeout") "") 0 3)
                world0)
  /\ (exists p es,
         runState (checkPrayerTimes (sample_env "") 2) world0
         = (Next, advance 2 2 p 0
                    ([ HttpGet request_url;
                       Log "Failed to fetch prayer times: timeout";
                       Sleep Minute;
                       HttpGet request_url;
                       Stdout (status_line "Dhuhr" "12:15") ] ++ es) world0)).
Proof.
  split; [|split].
  - apply (proj1 fetch_failure_retried_forever (sample_env "") world0 "timeout").
    reflexivity.
  - apply (proj1 (proj2 fetch_failure_retried_forever)
             (const_env "07:00" (inr "timeout") "") world0 3).
    intros k Hk. exists "timeout". reflexivity.
  - apply (proj2 (proj2 (proj2 (proj2 fetch_failure_retried_forever)))
             (sample_env "") world0 "timeout" sample_timings);
      reflexivity.
Defined.

(** C10: in a poll cycle that fetched a schedule whose six times are
    strictly increasing, if the clock sample at the match check equals
    the sample read by the selector, no alert is dispatched: the
    selected time is strictly greater than the sample when the scan
    found an event, and strictly less when it wrapped to Fajr. *)
Theorem same_sample_never_alerts (env : Env) (w : World) (timings : Timings) :
  fetch env (fetches w) = inl timings ->
  strictly_increasing timings = true ->
  now_HHMM env (S (clock_reads w)) = now_HHMM env (clock_reads w) ->
  let now := now_HHMM env (clock_reads w) in
  let next := nextPrayerAt now timings in
  alerts (trace (snd (runState (checkPrayerTimes_body env) w)))
  = alerts (trace w)
  /\ match scan now (prayers timings) with
     | Some _ => (now <? snd next)%string = true
     | None => (snd next <? now)%string = true
     end.
Proof.
  intros Hf Hinc Hsame. cbv zeta.
  assert (Horder :
            match scan (now_HHMM env (clock_reads w)) (prayers timings) with
            | Some _ =>
                (now_HHMM env (clock_reads w)
                   <? snd (nextPrayerAt (now_HHMM env (clock_reads w)) timings))%string
                = true
            | None =>
                (snd (nextPrayerAt (now_HHMM env (clock_reads w)) timings)
                   <? now_HHMM env (clock_reads w))%string
                = true
            end).
  { unfold nextPrayerAt.
    destruct (scan _ (prayers timings)) as [r|] eqn:E.
    - apply scan_some_inv in E. destruct E as (p & _ & -> & Hlt). exact Hlt.
    - cbn [snd].
      apply (StrOrd.ltb_leb_trans _ (Isha timings)).
      + apply (StrOrd.increasing_head _ _ Hinc). simpl. auto 10.
      + apply (scan_none_inv _ _ E (mkPrayer "Isha" (Isha timings))).
        simpl. auto 10. }
  split; [|exact Horder].
  rewrite (checkPrayerTimes_body_fetched env w timings Hf). cbn [snd].
  rewrite trace_advance, alerts_app. unfold cycle_alert. rewrite Hsame.
  destruct (String.eqb_spec (now_HHMM env (clock_reads w))
              (snd (nextPrayerAt (now_HHMM env (clock_reads w)) timings)))
    as [Heq|_]; [|cbn; now rewrite app_nil_r].
  destruct (scan _ (prayers timings)); rewrite <- Heq in Horder;
    rewrite StrOrd.ltb_irrefl in Horder; discriminate Horder.
Qed.

Lemma same_sample_never_alerts_witness :
  (alerts (trace (snd (runState (checkPrayerTimes_body (sample_env ""))
                                (mkWorld 1 1 0 0 [Notify "Adhan" "hello"]))))
   = [Notify "Adhan" "hello"]
   /\ ("12:15" <? "15:40")%string = true)
  /\ (alerts (trace (snd (runState
                            (checkPrayerTimes_body
                               (const_env "20:00" (inl sample_timings) ""))
                            world0)))
      = []
      /\ ("05:30" <? "20:00")%string = true).
Proof.
  split.
  - apply (same_sample_never_alerts
             (sample_env "") (mkWorld 1 1 0 0 [Notify "Adhan" "hello"])
             sample_timings);
      reflexivity.
  - apply (same_sample_never_alerts
             (const_env "20:00" (inl sample_timings) "") world0
             sample_timings);
      reflexivity.
Defined.

(** ** Claims on the command loop *)

(** C8: a pass of the command loop prints the prompt "Enter a command
    (or 'q' to quit): ", reads a line and trims it.  On [next] it
    fetches and prints "Next prayer: <name>, Time: <time>" and a line
    feed, for the name and time the selector returns; on [all] it
    fetches and renders the six-row table; on [q] it exits the process
    with status 0 and the loop is over; on anything else it prints
    "Invalid command" and a line feed.  A fetch error under [next] or
    [all] is logged as "Failed to fetch prayer times: <error>" and
    nothing else is printed for that command.  After every pass but [q]
    the loop goes on, and every pass opens with the prompt. *)
Theorem command_dispatch (env : Env) (TrimSpace : string -> string) (w : World) :
  let command := command_read env TrimSpace w in
  let pass := runState (handleUserInput_body env TrimSpace) w in
  let asked := Stdout "Enter a command (or 'q' to quit): " in
  (command = "next" ->
   forall timings, fetch env (fetches w) = inl timings ->
     let next :=
       fst (runState (getNextPrayerTime env timings)
                     (advance 0 1 0 1 [asked; HttpGet request_url] w)) in
     next = nextPrayerAt (now_HHMM env (clock_reads w)) timings
     /\ pass = (Next, advance 1 1 0 1
                        [ asked; HttpGet request_url;
                          Stdout ("Next prayer: " ++ fst next ++ ", Time: "
                                    ++ snd next ++ String "010"%char "") ] w))
  /\ (command = "all" ->
      forall timings, fetch env (fetches w) = inl timings ->
        pass = (Next, advance 0 1 0 1
                        [ asked; HttpGet request_url;
                          Table ["Prayer"; "Time"]
                                [ ["Fajr"; Fajr timings];
                                  ["Sunrise"; Sunrise timings];
                                  ["Dhuhr"; Dhuhr timings];
                                  ["Asr"; Asr timings];
                                  ["Maghrib"; Maghrib timings];
                                  ["Isha"; Isha timings] ] ] w))
  /\ (command = "next" \/ command = "all" ->
      forall err, fetch env (fetches w) = inr err ->
        pass = (Next, advance 0 1 0 1
                        [ asked; HttpGet request_url;
                          Log ("Failed to fetch prayer times: " ++ err) ] w))
  /\ (command = "q" ->
      pass = (Halt, advance 0 0 0 1 [asked; Exit 0] w))
  /\ (command <> "next" -> command <> "all" -> command <> "q" ->
      pass = (Next, advance 0 0 0 1
                      [ asked;
                        Stdout ("Invalid command" ++ String "010"%char "") ] w))
  /\ (forall fuel,
         runState (handleUserInput env TrimSpace (S fuel)) w
         = match fst pass with
           | Next => runState (handleUserInput env TrimSpace fuel) (snd pass)
           | Halt => (Halt, snd pass)
           end)
  /\ (exists c f es, snd pass = advance c f 0 1 (asked :: es) w).
Proof.
  cbv zeta. split; [|repeat split].
  - intros Hc timings Hf. rewrite getNextPrayerTime_run. cbn [fst].
    rewrite clock_reads_advance. cbn [Nat.add]. split; [reflexivity|].
    exact (handleUserInput_body_next_fetched env TrimSpace w timings Hc Hf).
  - intros Hc timings Hf.
    exact (handleUserInput_body_all_fetched env TrimSpace w timings Hc Hf).
  - intros [Hc|Hc] err Hf.
    + exact (handleUserInput_body_next_failed env TrimSpace w err Hc Hf).
    + exact (handleUserInput_body_all_failed env TrimSpace w err Hc Hf).
  - exact (handleUserInput_body_q env TrimSpace w).
  - exact (handleUserInput_body_invalid env TrimSpace w).
  - intros fuel. apply for_ever_step.
  - exact (handleUserInput_body_prompts env TrimSpace w).
Qed.

Lemma command_dispatch_witness :
  runState (handleUserInput_body (sample_env (" q" ++ newline)) TrimSpace_ascii)
           world0
  = (Halt, advance 0 0 0 1
             [Stdout "Enter a command (or 'q' to quit): "; Exit 0] world0)
  /\ runState (handleUserInput_body (sample_env ("Next" ++ newline))
                                    TrimSpace_ascii) world0
     = (Next, advance 0 0 0 1
                [ Stdout "Enter a command (or 'q' to quit): ";
                  Stdout ("Invalid command" ++ String "010"%char "") ] world0)
  /\ runState (handleUserInput_body (sample_env ("all" ++ newline))
                                    TrimSpace_ascii) world0
     = (Next, advance 0 1 0 1
                [ Stdout "Enter a command (or 'q' to quit): ";
                  HttpGet request_url;
                  Log "Failed to fetch prayer times: timeout" ] world0)
  /\ runState (handleUserInput_body (sample_env ("next" ++ newline))
                                    TrimSpace_ascii) (mkWorld 0 1 0 0 [])
     = (Next, advance 1 1 0 1
                [ Stdout "Enter a command (or 'q' to quit): ";
                  HttpGet request_url;
                  Stdout ("Next prayer: Dhuhr, Time: 12:15"
                            ++ String "010"%char "") ] (mkWorld 0 1 0 0 [])).
Proof.
  split; [|split; [|split]].
  - apply (proj1 (proj2 (proj2 (proj2
             (command_dispatch (sample_env (" q" ++ newline))
                               TrimSpace_ascii world0))))).
    reflexivity.
  - apply (proj1 (proj2 (proj2 (proj2 (proj2
             (command_dispatch (sample_env ("Next" ++ newline))
                               TrimSpace_ascii world0))))));
      vm_compute; discriminate.
  - apply (proj1 (proj2 (proj2
             (command_dispatch (sample_env ("all" ++ newline))
                               TrimSpace_ascii world0)))
             (or_intror eq_refl) "timeout").
    reflexivity.
  - apply (proj2 (proj1 (command_dispatch (sample_env ("next" ++ newline))
                                          TrimSpace_ascii (mkWorld 0 1 0 0 []))
                    eq_refl sample_timings eq_refl)).
Defined.

(** * Further properties of [main.go] *)

(** ** More on the string order *)

Lemma leb_ltb (a b : string) :
  (a <=? b)%string = true <-> (b <? a)%string = false.
Proof.
  rewrite StrOrd.ltb_negb_leb.
  destruct (a <=? b)%string; simpl; split; congruence.
Qed.

(** [a <= b] and [b <= c], as failed [<] tests, give [a <= c]. *)
Lemma not_ltb_trans (a b c : string) :
  (b <? a)%string = false -> (c <? b)%string = false -> (c <? a)%string = false.
Proof.
  intros Hab Hbc. destruct (c <? a)%string eqn:E; [|reflexivity].
  rewrite (StrOrd.ltb_leb_trans c a b E Hab) in Hbc. discriminate.
Qed.

Lemma ascending_head (a : string) (ts : list string) :
  ascending (a :: ts) = true ->
  forall b, In b ts -> (b <? a)%string = false.
Proof.
  revert a. induction ts as [|c ts IH]; intros a H b Hb; [destruct Hb|].
  cbn [ascending] in H. apply andb_prop in H. destruct H as [Hac Hrest].
  apply leb_ltb in Hac.
  destruct Hb as [<-|Hb]; [exact Hac|].
  apply (not_ltb_trans a c b Hac). now apply IH.
Qed.

Lemma ascending_tail (a : string) (ts : list string) :
  ascending (a :: ts) = true -> ascending ts = true.
Proof.
  destruct ts as [|c ts]; [reflexivity|].
  cbn [ascending]. intros H. now apply andb_prop in H.
Qed.

(** ** More on the selector *)

(** X1: Sunset, Imsak and Midnight are carried but never looked at: two
    schedules with the same six candidate times give the same selection
    at the same clock sample. *)
Theorem selection_ignores_other_fields
        (env : Env) (t1 t2 : Timings) (w : World) :
  same_candidates t1 t2 ->
  runState (getNextPrayerTime env t1) w = runState (getNextPrayerTime env t2) w.
Proof.
  intros (H1 & H2 & H3 & H4 & H5 & H6).
  rewrite !getNextPrayerTime_run. unfold nextPrayerAt, prayers.
  now rewrite H1, H2, H3, H4, H5, H6.
Qed.

Lemma selection_ignores_other_fields_witness :
  runState (getNextPrayerTime (sample_env "")
                              (example_schedule "18:19" "05:20" "00:07"))
           world0
  = runState (getNextPrayerTime (sample_env "")
                                (example_schedule "" "23:59" "12:14"))
             world0.
Proof.
  apply (selection_ignores_other_fields (sample_env "")).
  repeat split.
Defined.

(** X2: the time the selector returns is strictly after the clock sample
    exactly when some candidate's time is; when none is, the result is
    Fajr with a time that is not after the sample. *)
Theorem selected_time_future_iff (env : Env) (timings : Timings) (w : World) :
  let now := now_HHMM env (clock_reads w) in
  let r := fst (runState (getNextPrayerTime env timings) w) in
  ((now <? snd r)%string = true
   <-> exists p, In p (prayers timings) /\ (now <? Time p)%string = true)
  /\ ((now <? snd r)%string = false -> r = ("Fajr", Fajr timings)).
Proof.
  cbv zeta. rewrite getNextPrayerTime_run. cbn [fst]. unfold nextPrayerAt.
  destruct (scan _ (prayers timings)) as [r|] eqn:E.
  - apply scan_some_inv in E. destruct E as (p & Hp & -> & Hlt). cbn [snd].
    split; [split; [eauto | auto] | congruence].
  - pose proof (scan_none_inv _ _ E) as Hnone. cbn [snd]. split; [|reflexivity].
    pose proof (Hnone (mkPrayer "Fajr" (Fajr timings)) (or_introl eq_refl))
      as HF.
    cbn [Time first_name prayers Name] in *. rewrite HF.
    split; [discriminate|]. intros (p & Hp & Hlt).
    rewrite (Hnone p Hp) in Hlt. discriminate.
Qed.

Lemma selected_time_future_iff_witness :
  fst (runState (getNextPrayerTime (const_env "20:00" (inl sample_timings) "")
                                   sample_timings) world0)
  = ("Fajr", "05:30").
Proof.
  apply (proj2 (selected_time_future_iff
                  (const_env "20:00" (inl sample_timings) "")
                  sample_timings world0)).
  reflexivity.
Defined.

Lemma scan_earliest (now : string) (ps : list Prayer) :
  ascending (map Time ps) = true ->
  forall r, scan now ps = Some r ->
  forall p, In p ps -> (now <? Time p)%string = true ->
            (Time p <? snd r)%string = false.
Proof.
  induction ps as [|h ps IH]; intros Hasc r Hr p Hp Hlt; [destruct Hp|].
  cbn [scan] in Hr. cbn [map] in Hasc.
  destruct (now <? Time h)%string eqn:E.
  - injection Hr as <-. cbn [snd]. destruct Hp as [<-|Hp].
    + apply StrOrd.ltb_irrefl.
    + apply (ascending_head _ _ Hasc). now apply in_map.
  - destruct Hp as [<-|Hp]; [congruence|].
    exact (IH (ascending_tail _ _ Hasc) r Hr p Hp Hlt).
Qed.

(** X3: on a schedule whose six times are in ascending order, the event
    the scan finds is the earliest upcoming one: no candidate that is
    after the clock sample is before the selected time. *)
Theorem selected_is_earliest_upcoming
        (env : Env) (timings : Timings) (w : World) (p : Prayer) :
  let now := now_HHMM env (clock_reads w) in
  ascending (map Time (prayers timings)) = true ->
  In p (prayers timings) ->
  (now <? Time p)%string = true ->
  let r := fst (runState (getNextPrayerTime env timings) w) in
  (now <? snd r)%string = true /\ (snd r <=? Time p)%string = true.
Proof.
  cbv zeta. intros Hasc Hp Hlt.
  rewrite getNextPrayerTime_run. cbn [fst]. unfold nextPrayerAt.
  destruct (scan _ (prayers timings)) as [r|] eqn:E.
  - split.
    + apply scan_some_inv in E. destruct E as (q & _ & -> & Hq). exact Hq.
    + apply leb_ltb. exact (scan_earliest _ _ Hasc r E p Hp Hlt).
  - rewrite (scan_none_inv _ _ E p Hp) in Hlt. discriminate.
Qed.

Lemma selected_is_earliest_upcoming_witness :
  ("07:00" <? "12:15")%string = true /\ ("12:15" <=? "18:20")%string = true.
Proof.
  apply (selected_is_earliest_upcoming
           (const_env "07:00" (inl sample_timings) "") sample_timings world0
           (mkPrayer "Maghrib" "18:20")).
  - reflexivity.
  - simpl. auto 10.
  - reflexivity.
Defined.

Lemma scan_between (now : string) (ps : list Prayer) :
  forall i p q,
    ascending (map Time ps) = true ->
    nth_error ps i = Some p ->
    nth_error ps (S i) = Some q ->
    (now <? Time p)%string = false ->
    (now <? Time q)%string = true ->
    scan now ps = Some (Name q, Time q).
Proof.
  induction ps as [|h ps IH]; intros i p q Hasc Hi Hsi Hp Hq.
  - destruct i; discriminate.
  - cbn [map] in Hasc. destruct i as [|i]; cbn [nth_error] in Hi, Hsi.
    + injection Hi as ->. cbn [scan]. rewrite Hp.
      destruct ps as [|q' ps]; [discriminate|].
      cbn [nth_error] in Hsi. injection Hsi as ->. cbn [scan]. now rewrite Hq.
    + cbn [scan].
      assert (Hh : (now <? Time h)%string = false).
      { apply (not_ltb_trans _ (Time p)); [|exact Hp].
        apply (ascending_head _ _ Hasc). apply in_map.
        exact (nth_error_In _ _ Hi). }
      rewrite Hh. exact (IH i p q (ascending_tail _ _ Hasc) Hi Hsi Hp Hq).
Qed.

(** X4: on a schedule in ascending order, a clock sample that is at or
    after event i and strictly before event i+1 selects event i+1. *)
Theorem between_events_selects_next
        (env : Env) (timings : Timings) (w : World) (i : nat) (p q : Prayer) :
  let now := now_HHMM env (clock_reads w) in
  ascending (map Time (prayers timings)) = true ->
  nth_error (prayers timings) i = Some p ->
  nth_error (prayers timings) (S i) = Some q ->
  (Time p <=? now)%string = true ->
  (now <? Time q)%string = true ->
  fst (runState (getNextPrayerTime env timings) w) = (Name q, Time q).
Proof.
  cbv zeta. intros Hasc Hi Hsi Hp Hq.
  rewrite getNextPrayerTime_run. cbn [fst]. unfold nextPrayerAt.
  apply leb_ltb in Hp.
  now rewrite (scan_between _ _ i p q Hasc Hi Hsi Hp Hq).
Qed.

Lemma between_events_selects_next_witness :
  fst (runState (getNextPrayerTime (const_env "13:00" (inl tied_timings) "")
                                   tied_timings) world0)
  = ("Maghrib", "18:20").
Proof.
  apply (between_events_selects_next
           (const_env "13:00" (inl tied_timings) "") tied_timings world0
           3 (mkPrayer "Asr" "12:15") (mkPrayer "Maghrib" "18:20"));
    reflexivity.
Defined.

(** ** The "15:04" layout and the string order *)

Lemma digit_compare (a b : nat) :
  a < 10 -> b < 10 -> Ascii.compare (digit a) (digit b) = Nat.compare a b.
Proof.
  intros Ha Hb. unfold Ascii.compare, digit.
  rewrite N2Nat.inj_compare.
  change (N.to_nat (N_of_ascii ?c)) with (nat_of_ascii c).
  rewrite !nat_ascii_embedding by lia.
  destruct (Nat.compare_spec a b), (Nat.compare_spec (48 + a) (48 + b));
    try reflexivity; lia.
Qed.

(** Two strings that begin with two digits compare by the two-digit
    numbers first. *)
Lemma two_digits_compare (a b : nat) (s t : string) :
  a < 100 -> b < 100 ->
  ((two_digits a ++ s) ?= (two_digits b ++ t))%string
  = match Nat.compare a b with
    | Eq => (s ?= t)%string
    | c => c
    end.
Proof.
  intros Ha Hb. unfold two_digits. cbn [String.append String.compare].
  pose proof (Nat.div_mod_eq a 10) as Ea.
  pose proof (Nat.div_mod_eq b 10) as Eb.
  pose proof (Nat.mod_upper_bound a 10) as Ma.
  pose proof (Nat.mod_upper_bound b 10) as Mb.
  assert (a / 10 < 10) by (apply Nat.Div0.div_lt_upper_bound; lia).
  assert (b / 10 < 10) by (apply Nat.Div0.div_lt_upper_bound; lia).
  rewrite !digit_compare by lia.
  destruct (Nat.compare_spec (a / 10) (b / 10));
    destruct (Nat.compare_spec (a mod 10) (b mod 10));
    destruct (Nat.compare_spec a b); try reflexivity; lia.
Qed.

Lemma hhmm_compare (h1 m1 h2 m2 : nat) :
  h1 < 100 -> m1 < 100 -> h2 < 100 -> m2 < 100 ->
  (hhmm h1 m1 ?= hhmm h2 m2)%string
  = match Nat.compare h1 h2 with
    | Eq => Nat.compare m1 m2
    | c => c
    end.
Proof.
  intros Hh1 Hm1 Hh2 Hm2. unfold hhmm.
  rewrite two_digits_compare by assumption.
  destruct (Nat.compare h1 h2); try reflexivity.
  change (":" ++ two_digits m1) with (String ":" (two_digits m1 ++ "")).
  change (":" ++ two_digits m2) with (String ":" (two_digits m2 ++ "")).
  cbn [String.compare]. change (Ascii.compare ":" ":") with Eq. cbv iota.
  rewrite two_digits_compare by assumption.
  destruct (Nat.compare m1 m2); reflexivity.
Qed.

(** X5: on times written in the "15:04" layout, Go's string comparison
    is the chronological one: [hhmm h1 m1 < hhmm h2 m2] as strings
    exactly when minute [60*h1+m1] of the day is before minute
    [60*h2+m2], and the two strings are equal only for the same hour and
    minute. *)
Theorem hhmm_order_is_chronological (h1 m1 h2 m2 : nat) :
  h1 < 24 -> m1 < 60 -> h2 < 24 -> m2 < 60 ->
  (hhmm h1 m1 <? hhmm h2 m2)%string
  = (minute_of_day h1 m1 <? minute_of_day h2 m2)%nat
  /\ ((hhmm h1 m1 =? hhmm h2 m2)%string
      = (minute_of_day h1 m1 =? minute_of_day h2 m2)%nat).
Proof.
  intros Hh1 Hm1 Hh2 Hm2. unfold minute_of_day.
  assert (Hc := hhmm_compare h1 m1 h2 m2).
  split.
  - unfold String.ltb. rewrite Hc by lia.
    destruct (Nat.compare_spec h1 h2); destruct (Nat.compare_spec m1 m2);
      destruct (Nat.ltb_spec (60 * h1 + m1) (60 * h2 + m2));
      try reflexivity; lia.
  - destruct (String.eqb_spec (hhmm h1 m1) (hhmm h2 m2)) as [E|E];
      destruct (Nat.eqb_spec (60 * h1 + m1) (60 * h2 + m2)) as [N|N];
      try reflexivity; exfalso.
    + rewrite E, StrOrd.compare_refl in Hc.
      specialize (Hc ltac:(lia) ltac:(lia) ltac:(lia) ltac:(lia)).
      destruct (Nat.compare_spec h1 h2); destruct (Nat.compare_spec m1 m2);
        try discriminate; lia.
    + apply E. assert (h1 = h2 /\ m1 = m2) as [-> ->] by lia. reflexivity.
Qed.

Lemma hhmm_order_is_chronological_witness :
  (hhmm 9 5 <? hhmm 18 20)%string = (minute_of_day 9 5 <? minute_of_day 18 20)%nat
  /\ ((hhmm 9 5 =? hhmm 18 20)%string
      = (minute_of_day 9 5 =? minute_of_day 18 20)%nat).
Proof.
  apply (hhmm_order_is_chronological 9 5 18 20); lia.
Defined.

Lemma scan_slots (h m : nat) (evs : list Slot) :
  h < 24 -> m < 60 -> Forall valid_slot evs ->
  scan (hhmm h m) (map slot_prayer evs)
  = match find (slot_after h m) evs with
    | Some e => Some (slot_name e, hhmm (slot_hour e) (slot_minute e))
    | None => None
    end.
Proof.
  intros Hh Hm Hv. induction Hv as [|e evs [He1 He2] _ IH]; [reflexivity|].
  cbn [map scan find slot_prayer Time Name].
  rewrite (proj1 (hhmm_order_is_chronological h m _ _ Hh Hm He1 He2)).
  fold (slot_after h m e).
  destruct (slot_after h m e); [reflexivity | exact IH].
Qed.

(** X6: when the clock sample and the six times are all written in the
    "15:04" layout, the selector picks by the clock: it returns the
    first candidate, in day order, whose minute of the day is after the
    sample's, and Fajr when there is none. *)
Theorem selection_on_hhmm_is_chronological
        (env : Env) (timings : Timings) (w : World) (h m : nat)
        (evs : list Slot) :
  now_HHMM env (clock_reads w) = hhmm h m ->
  h < 24 -> m < 60 ->
  prayers timings = map slot_prayer evs ->
  Forall valid_slot evs ->
  fst (runState (getNextPrayerTime env timings) w)
  = match find (slot_after h m) evs with
    | Some e => (slot_name e, hhmm (slot_hour e) (slot_minute e))
    | None => ("Fajr", Fajr timings)
    end.
Proof.
  intros Hnow Hh Hm Hps Hv.
  rewrite getNextPrayerTime_run. cbn [fst]. unfold nextPrayerAt.
  rewrite Hnow, Hps, (scan_slots h m evs Hh Hm Hv), <- Hps.
  destruct (find _ evs); reflexivity.
Qed.

Lemma selection_on_hhmm_is_chronological_witness :
  fst (runState (getNextPrayerTime (const_env "07:00" (inl sample_timings) "")
                                   sample_timings) world0)
  = ("Dhuhr", "12:15").
Proof.
  apply (selection_on_hhmm_is_chronological
           (const_env "07:00" (inl sample_timings) "") sample_timings world0
           7 0
           [ mkSlot "Fajr" 5 30; mkSlot "Sunrise" 6 45; mkSlot "Dhuhr" 12 15;
             mkSlot "Asr" 15 40; mkSlot "Maghrib" 18 20; mkSlot "Isha" 19 45 ]).
  - reflexivity.
  - lia.
  - lia.
  - reflexivity.
  - repeat constructor; simpl; lia.
Defined.

(** ** More on the poll loop *)

Lemma nextPrayerAt_name (now : string) (timings : Timings) :
  In (fst (nextPrayerAt now timings))
     ["Fajr"; "Sunrise"; "Dhuhr"; "Asr"; "Maghrib"; "Isha"].
Proof.
  unfold nextPrayerAt.
  destruct (scan now (prayers timings)) as [r|] eqn:E.
  - apply scan_some_inv in E. destruct E as (p & Hp & -> & _).
    simpl in Hp.
    destruct Hp as [<-|[<-|[<-|[<-|[<-|[<-|[]]]]]]]; simpl; auto 10.
  - simpl. auto.
Qed.

Lemma sleeps_app (es1 es2 : list Effect) :
  sleeps (es1 ++ es2) = (sleeps es1 ++ sleeps es2)%list.
Proof. apply flat_map_app. Qed.

Lemma requests_app (es1 es2 : list Effect) :
  requests (es1 ++ es2) = (requests es1 ++ requests es2)%list.
Proof. apply flat_map_app. Qed.

Lemma exits_app (es1 es2 : list Effect) :
  exits (es1 ++ es2) = (exits es1 ++ exits es2)%list.
Proof. apply flat_map_app. Qed.

Lemma poll_effect_no_exit (es : list Effect) :
  Forall poll_effect es -> exits es = [].
Proof.
  induction 1 as [|e es He _ IH]; [reflexivity|].
  destruct e; cbn in *; try exact IH. destruct He.
Qed.

(** What one pass of the poll loop does, whatever the fetch returns. *)
Lemma checkPrayerTimes_body_summary (env : Env) (w : World) :
  exists c p es,
    runState (checkPrayerTimes_body env) w = (Next, advance c 1 p 0 es w)
    /\ c <= 2 /\ p <= 1 /\ length (alerts es) = p
    /\ sleeps es = [Minute]
    /\ requests es = [request_url]
    /\ Forall poll_effect es.
Proof.
  destruct (fetch env (fetches w)) as [timings|err] eqn:Hf.
  - rewrite (checkPrayerTimes_body_fetched env w timings Hf).
    do 3 eexists. split; [reflexivity|].
    pose proof (nextPrayerAt_name (now_HHMM env (clock_reads w)) timings) as Hn.
    assert (Hnote : poll_effect
                      (Notify "Prayer Time"
                         ("It's time for "
                            ++ fst (nextPrayerAt (now_HHMM env (clock_reads w))
                                                 timings)
                            ++ " prayer."))).
    { split; [reflexivity|]. eexists. split; [exact Hn | reflexivity]. }
    unfold cycle_alert.
    destruct (_ =? _)%string; [destruct (push_err env (pushes w))|];
      (repeat split; [cbn; lia | cbn; lia | ]);
      repeat (apply Forall_cons;
              [first [exact Hnote | exact I | reflexivity]|]);
      apply Forall_nil.
  - rewrite (checkPrayerTimes_body_failed env w err Hf).
    do 3 eexists. split; [reflexivity|].
    cbn. repeat split; try lia. repeat (constructor; cbn; auto).
Qed.

Lemma checkPrayerTimes_summary (env : Env) (n : nat) :
  forall w,
  exists c p es,
    runState (checkPrayerTimes env n) w = (Next, advance c n p 0 es w)
    /\ c <= 2 * n /\ p <= n /\ length (alerts es) = p
    /\ sleeps es = repeat Minute n
    /\ requests es = repeat request_url n
    /\ Forall poll_effect es.
Proof.
  unfold checkPrayerTimes. induction n as [|n IH]; intros w.
  - exists 0, 0, []. cbn [for_ever]. rewrite ret_run.
    unfold advance. cbn. rewrite app_nil_r. destruct w. repeat split; auto.
  - destruct (checkPrayerTimes_body_summary env w)
      as (c1 & p1 & es1 & Hrun1 & Hc1 & Hp1 & Ha1 & Hs1 & Hr1 & Hf1).
    rewrite for_ever_step, Hrun1. cbn [fst snd].
    destruct (IH (advance c1 1 p1 0 es1 w))
      as (c2 & p2 & es2 & Hrun2 & Hc2 & Hp2 & Ha2 & Hs2 & Hr2 & Hf2).
    rewrite Hrun2, advance_advance.
    exists (c2 + c1), (p2 + p1), (es1 ++ es2)%list.
    rewrite Nat.add_1_r. cbn [Nat.add].
    split; [reflexivity|].
    rewrite alerts_app, length_app, sleeps_app, requests_app, Hs1, Hs2, Hr1, Hr2.
    repeat split; try lia; try reflexivity.
    apply Forall_app. auto.
Qed.

(** X7: the cadence of the poll loop.  After any number [n] of passes,
    whatever the fetches return and whatever the clock reads, the loop
    is still running and has made exactly [n] requests, all to the one
    URL built from the constants, and slept exactly [n] times, one
    minute each time; it has read no input line and at most two clock
    samples per pass. *)
Theorem poll_loop_cadence (env : Env) (n : nat) (w : World) :
  exists c p es,
    runState (checkPrayerTimes env n) w = (Next, advance c n p 0 es w)
    /\ c <= 2 * n
    /\ sleeps es = repeat 60000000000%Z n
    /\ requests es
       = repeat "http://api.aladhan.com/v1/timingsByCity?city=Boynton Beach&country=United States&method=3" n.
Proof.
  destruct (checkPrayerTimes_summary env n w)
    as (c & p & es & Hrun & Hc & _ & _ & Hs & Hr & _).
  exists c, p, es. auto.
Qed.

(** X8: what the poll loop may emit.  Over any number [n] of passes
    every effect is a request to the fixed URL, a log line, a status
    line, a one-minute sleep, or an alert titled "Prayer Time" whose
    message is "It's time for <name> prayer." for one of the six names;
    it never exits the process and never prints the table.  There is at
    most one alert per pass, and as many pushes as alerts. *)
Theorem poll_loop_effects (env : Env) (n : nat) (w : World) :
  exists c p es,
    runState (checkPrayerTimes env n) w = (Next, advance c n p 0 es w)
    /\ Forall poll_effect es
    /\ exits es = []
    /\ length (alerts es) = p
    /\ p <= n.
Proof.
  destruct (checkPrayerTimes_summary env n w)
    as (c & p & es & Hrun & _ & Hp & Ha & _ & _ & Hf).
  exists c, p, es. repeat split; auto using poll_effect_no_exit.
Qed.

(** X13: a pass whose two clock samples are equal alerts in one case
    only, on any schedule: no candidate is after the sample and Fajr's
    time is the sample itself; the alert is then for Fajr.  In every
    other case such a pass dispatches no alert. *)
Theorem same_sample_alert_only_when_degenerate
        (env : Env) (w : World) (timings : Timings) :
  fetch env (fetches w) = inl timings ->
  now_HHMM env (S (clock_reads w)) = now_HHMM env (clock_reads w) ->
  let now := now_HHMM env (clock_reads w) in
  let w' := snd (runState (checkPrayerTimes_body env) w) in
  ((forall p, In p (prayers timings) -> (now <? Time p)%string = false) ->
   Fajr timings = now ->
   alerts (trace w')
   = (alerts (trace w)
        ++ [Notify "Prayer Time" "It's time for Fajr prayer."])%list)
  /\ ((exists p, In p (prayers timings) /\ (now <? Time p)%string = true)
      \/ Fajr timings <> now ->
      alerts (trace w') = alerts (trace w)).
Proof.
  intros Hf Hsame. cbv zeta.
  rewrite (checkPrayerTimes_body_fetched env w timings Hf). cbn [snd].
  rewrite trace_advance, alerts_app. unfold cycle_alert, nextPrayerAt.
  rewrite Hsame. split.
  - intros Hnone HF. rewrite (scan_none _ _ Hnone).
    cbn [fst snd first_name prayers Name].
    rewrite HF, String.eqb_refl.
    destruct (push_err env (pushes w)); reflexivity.
  - intros Hcase.
    destruct (scan _ (prayers timings)) as [r|] eqn:E.
    + apply scan_some_inv in E. destruct E as (q & _ & -> & Hlt). cbn [snd].
      rewrite (proj2 (String.eqb_neq _ _) (StrOrd.ltb_neq _ _ Hlt)).
      cbn. now rewrite app_nil_r.
    + destruct Hcase as [(p & Hp & Hlt)|Hne].
      * rewrite (scan_none_inv _ _ E p Hp) in Hlt. discriminate.
      * cbn [snd]. rewrite (proj2 (String.eqb_neq _ _) (not_eq_sym Hne)).
        cbn. now rewrite app_nil_r.
Qed.

Lemma same_sample_alert_only_when_degenerate_witness :
  alerts (trace (snd (runState
                        (checkPrayerTimes_body
                           (const_env "19:45"
                              (inl (mkTimings "19:45" "06:45" "12:15" "15:40"
                                              "18:19" "18:20" "19:45"
                                              "05:20" "00:07")) ""))
                        world0)))
  = [Notify "Prayer Time" "It's time for Fajr prayer."]
  /\ alerts (trace (snd (runState
                           (checkPrayerTimes_body
                              (const_env "19:45" (inl sample_timings) ""))
                           world0)))
     = [].
Proof.
  split.
  - apply (proj1 (same_sample_alert_only_when_degenerate
                    (const_env "19:45"
                       (inl (mkTimings "19:45" "06:45" "12:15" "15:40"
                                       "18:19" "18:20" "19:45"
                                       "05:20" "00:07")) "")
                    world0 _ eq_refl eq_refl)).
    + intros p Hp. simpl in Hp.
      destruct Hp as [<-|[<-|[<-|[<-|[<-|[<-|[]]]]]]]; reflexivity.
    + reflexivity.
  - apply (proj2 (same_sample_alert_only_when_degenerate
                    (const_env "19:45" (inl sample_timings) "")
                    world0 sample_timings eq_refl eq_refl)).
    right. vm_compute. discriminate.
Defined.

(** ** More on the startup of [main] *)

(** X9: before it starts the two loops, [main] makes exactly one
    request, whether it succeeds or not, reads the clock once and
    pushes exactly two notes: the greeting, and the announcement of the
    selection made on the fetched schedule, or on [Timings{}] when the
    fetch failed.  It sleeps three seconds, and one more minute after a
    failed fetch. *)
Theorem startup_fetches_once_and_announces (env : Env) (w : World) :
  let next :=
    nextPrayerAt (now_HHMM env (clock_reads w)) (startup_timings env w) in
  exists es,
    snd (runState (main_startup env) w) = advance 1 1 2 0 es w
    /\ alerts es
       = [ Notify "Adhan" "Adhan app is active!";
           Notify "Adhan"
                  ("Next Prayer is : " ++ fst next ++ " at: " ++ snd next) ]
    /\ requests es = [request_url]
    /\ sleeps es
       = match fetch env (fetches w) with
         | inl _ => [3000000000%Z]
         | inr _ => [3000000000%Z; 60000000000%Z]
         end
    /\ exits es = [].
Proof.
  cbv zeta. unfold main_startup, startup_timings.
  do 3 run_step.
  destruct (fetch env (fetches w)) as [timings|err]; cbn [fst snd];
    repeat run_step;
    destruct (nextPrayerAt _ _) as [nx tim]; repeat run_step;
    eexists; (split; [reflexivity|]);
    destruct (push_err env (pushes w)), (push_err env (S (pushes w)));
    repeat split.
Qed.

(** ** More on the command loop *)

(** What one pass of the command loop does, whatever is typed and
    whatever the fetch returns. *)
Lemma handleUserInput_body_summary
      (env : Env) (TrimSpace : string -> string) (w : World) :
  (exists c f es,
      runState (handleUserInput_body env TrimSpace) w
      = (Next, advance c f 0 1 (Stdout prompt :: es) w)
      /\ c <= f /\ f <= 1 /\ Forall command_effect es)
  \/ runState (handleUserInput_body env TrimSpace) w
     = (Halt, advance 0 0 0 1 [Stdout prompt; Exit 0] w).
Proof.
  destruct (String.eqb_spec (command_read env TrimSpace w) "next") as [Hn|Hn];
    [|destruct (String.eqb_spec (command_read env TrimSpace w) "all") as [Ha|Ha];
      [|destruct (String.eqb_spec (command_read env TrimSpace w) "q") as [Hq|Hq]]].
  - left. destruct (fetch env (fetches w)) as [timings|err] eqn:Hf.
    + rewrite (handleUserInput_body_next_fetched env TrimSpace w timings Hn Hf).
      do 3 eexists. split; [reflexivity|].
      repeat split; try lia. repeat (constructor; try reflexivity).
    + rewrite (handleUserInput_body_next_failed env TrimSpace w err Hn Hf).
      do 3 eexists. split; [reflexivity|].
      repeat split; try lia. repeat (constructor; try reflexivity).
  - left. destruct (fetch env (fetches w)) as [timings|err] eqn:Hf.
    + rewrite (handleUserInput_body_all_fetched env TrimSpace w timings Ha Hf).
      do 3 eexists. split; [reflexivity|].
      repeat split; try lia. repeat (constructor; try reflexivity).
    + rewrite (handleUserInput_body_all_failed env TrimSpace w err Ha Hf).
      do 3 eexists. split; [reflexivity|].
      repeat split; try lia. repeat (constructor; try reflexivity).
  - right. exact (handleUserInput_body_q env TrimSpace w Hq).
  - left. rewrite (handleUserInput_body_invalid env TrimSpace w Hn Ha Hq).
    do 3 eexists. split; [reflexivity|].
    repeat split; try lia. repeat (constructor; try reflexivity).
Qed.

(** X11: what the command loop may do.  Over any number of passes it
    reads one line per pass, makes at most one request per line and
    reads the clock at most once per request; it never sleeps and never
    pushes a note; an effect before the exit is a prompt or other
    console text, a request to the fixed URL, a log line or a six-row
    table.  It stops only by exiting with status 0, and then the prompt
    and the exit are the last two effects of the trace. *)
Theorem command_loop_effects
        (env : Env) (TrimSpace : string -> string) (fuel : nat) (w : World) :
  exists ctl c f l es,
    runState (handleUserInput env TrimSpace fuel) w
    = (ctl, advance c f 0 l es w)
    /\ c <= f /\ f <= l /\ l <= fuel
    /\ match ctl with
       | Next => l = fuel /\ Forall command_effect es
       | Halt =>
           exists es0,
             es = (es0 ++ [Stdout prompt; Exit 0])%list
             /\ Forall command_effect es0
             /\ 1 <= l
       end.
Proof.
  revert w. unfold handleUserInput. induction fuel as [|fuel IH]; intros w.
  - exists Next, 0, 0, 0, []. cbn [for_ever]. rewrite ret_run.
    unfold advance. cbn. rewrite app_nil_r. destruct w. repeat split; auto.
  - rewrite for_ever_step.
    destruct (handleUserInput_body_summary env TrimSpace w)
      as [(c1 & f1 & es1 & Hrun1 & Hc1 & Hf1 & He1)|Hrun1];
      rewrite Hrun1; cbn [fst snd].
    + destruct (IH (advance c1 f1 0 1 (Stdout prompt :: es1) w))
        as (ctl & c2 & f2 & l2 & es2 & Hrun2 & Hc2 & Hf2 & Hl2 & Hctl).
      rewrite Hrun2, advance_advance. cbn [Nat.add].
      exists ctl, (c2 + c1), (f2 + f1), (l2 + 1),
        ((Stdout prompt :: es1) ++ es2)%list.
      split; [reflexivity|]. repeat split; try lia.
      destruct ctl.
      * destruct Hctl as [-> Hes2]. split; [lia|].
        apply Forall_app. split; [constructor; [exact I | exact He1] | exact Hes2].
      * destruct Hctl as (es0 & -> & Hes0 & Hl).
        exists ((Stdout prompt :: es1) ++ es0)%list.
        rewrite app_assoc. repeat split; try lia.
        apply Forall_app. split; [constructor; [exact I | exact He1] | exact Hes0].
    + exists Halt, 0, 0, 1, [Stdout prompt; Exit 0].
      split; [reflexivity|]. repeat split; try lia.
      exists []. repeat split; auto.
Qed.

(** X10: lines that trim to something other than [next], [all] and [q]
    (the empty line [ReadString] returns at end of input among them) are
    answered one by one with "Invalid command" and a new prompt: after
    [n] such lines the loop is still running and has made no request. *)
Theorem unrecognized_lines_only_reprompt
        (env : Env) (TrimSpace : string -> string) (n : nat) :
  forall w,
    (forall k, k < n ->
       TrimSpace (stdin_line env (k + lines_read w)) <> "next"
       /\ TrimSpace (stdin_line env (k + lines_read w)) <> "all"
       /\ TrimSpace (stdin_line env (k + lines_read w)) <> "q") ->
    runState (handleUserInput env TrimSpace n) w
    = (Next, advance 0 0 0 n (invalid_passes n) w).
Proof.
  unfold handleUserInput. induction n as [|n IH]; intros w H.
  - cbn [for_ever invalid_passes]. rewrite ret_run.
    unfold advance. cbn. rewrite app_nil_r. now destruct w.
  - destruct (H 0 (Nat.lt_0_succ n)) as (Hn & Ha & Hq). cbn [Nat.add] in *.
    rewrite for_ever_step,
      (handleUserInput_body_invalid env TrimSpace w Hn Ha Hq).
    cbn [fst snd]. rewrite IH.
    + rewrite advance_advance, Nat.add_1_r. reflexivity.
    + intros k Hk. rewrite lines_read_advance.
      replace (k + (1 + lines_read w)) with (S k + lines_read w) by lia.
      apply H. lia.
Qed.

Lemma unrecognized_lines_only_reprompt_witness :
  runState (handleUserInput (const_env "07:00" (inl sample_timings) "")
                            TrimSpace_ascii 3) world0
  = (Next, advance 0 0 0 3 (invalid_passes 3) world0).
Proof.
  apply (unrecognized_lines_only_reprompt
           (const_env "07:00" (inl sample_timings) "") TrimSpace_ascii 3 world0).
  intros k Hk. repeat split; vm_compute; discriminate.
Defined.

Lemma nextPrayerAt_candidate (now : string) (timings : Timings) :
  exists p,
    In p (prayers timings) /\ nextPrayerAt now timings = (Name p, Time p).
Proof.
  unfold nextPrayerAt.
  destruct (scan now (prayers timings)) as [r|] eqn:E.
  - apply scan_some_inv in E. destruct E as (p & Hp & -> & _). eauto.
  - exists (mkPrayer "Fajr" (Fajr timings)). split; [|reflexivity].
    simpl. auto.
Qed.

(** X12: [next] and [all] agree.  On the same fetched schedule, [next]
    prints "Next prayer: <name>, Time: <time>" and a line feed for the
    name and time the selector returns at the clock sample it reads;
    the table printed by [all] has one row per candidate of the
    selector, in the selector's order; and that name and time are one
    of its rows. *)
Theorem next_answer_is_a_table_row
        (env1 env2 : Env) (TrimSpace : string -> string) (w1 w2 : World)
        (timings : Timings) :
  command_read env1 TrimSpace w1 = "next" ->
  command_read env2 TrimSpace w2 = "all" ->
  fetch env1 (fetches w1) = inl timings ->
  fetch env2 (fetches w2) = inl timings ->
  exists name time rows,
    (name, time) = nextPrayerAt (now_HHMM env1 (clock_reads w1)) timings
    /\ trace (snd (runState (handleUserInput_body env1 TrimSpace) w1))
       = (trace w1
            ++ [ Stdout "Enter a command (or 'q' to quit): ";
                 HttpGet request_url;
                 Stdout ("Next prayer: " ++ name ++ ", Time: " ++ time
                           ++ String "010"%char "") ])%list
    /\ trace (snd (runState (handleUserInput_body env2 TrimSpace) w2))
       = (trace w2
            ++ [ Stdout "Enter a command (or 'q' to quit): ";
                 HttpGet request_url;
                 Table ["Prayer"; "Time"] rows ])%list
    /\ rows = map (fun p => [Name p; Time p]) (prayers timings)
    /\ In [name; time] rows.
Proof.
  intros Hc1 Hc2 Hf1 Hf2.
  rewrite (handleUserInput_body_next_fetched env1 TrimSpace w1 timings Hc1 Hf1).
  rewrite (handleUserInput_body_all_fetched env2 TrimSpace w2 timings Hc2 Hf2).
  destruct (nextPrayerAt_candidate (now_HHMM env1 (clock_reads w1)) timings)
    as (p & Hp & Hnext).
  rewrite Hnext. cbn [fst snd]. rewrite !trace_advance.
  exists (Name p), (Time p), (map (fun p => [Name p; Time p]) (prayers timings)).
  repeat split.
  exact (in_map (fun p => [Name p; Time p]) _ _ Hp).
Qed.

Lemma next_answer_is_a_table_row_witness :
  exists name time rows,
    (name, time) = ("Dhuhr", "12:15")
    /\ trace (snd (runState (handleUserInput_body (sample_env "next")
                                                  TrimSpace_ascii)
                            (mkWorld 0 1 0 0 [])))
       = [ Stdout "Enter a command (or 'q' to quit): ";
           HttpGet request_url;
           Stdout ("Next prayer: " ++ name ++ ", Time: " ++ time
                     ++ String "010"%char "") ]
    /\ trace (snd (runState (handleUserInput_body (sample_env "all")
                                                  TrimSpace_ascii)
                            (mkWorld 0 1 0 0 [])))
       = [ Stdout "Enter a command (or 'q' to quit): ";
           HttpGet request_url;
           Table ["Prayer"; "Time"] rows ]
    /\ rows = map (fun p => [Name p; Time p]) (prayers sample_timings)
    /\ In [name; time] rows.
Proof.
  apply (next_answer_is_a_table_row
           (sample_env "next") (sample_env "all") TrimSpace_ascii
           (mkWorld 0 1 0 0 []) (mkWorld 0 1 0 0 []) sample_timings);
    reflexivity.
Defined.

(** ** Alerts across passes *)

Lemma cycle_alert_silent (env : Env) (w : World) (timings : Timings) :
  (forall p, In p (prayers timings) ->
             now_HHMM env (S (clock_reads w)) <> Time p) ->
  cycle_alert env w timings = [].
Proof.
  intros H. unfold cycle_alert.
  destruct (nextPrayerAt_candidate (now_HHMM env (clock_reads w)) timings)
    as (p & Hp & ->).
  cbn [snd]. now rewrite (proj2 (String.eqb_neq _ _) (H p Hp)).
Qed.

(** X15: the alert is by exact match only, with no catching up.  If no
    clock sample equals a candidate time of a fetched schedule, then no
    alert is dispatched, over any number of passes and however far the
    clock has moved past the events. *)
Theorem no_exact_sample_no_alert (env : Env) (n : nat) :
  (forall k j timings p,
      fetch env j = inl timings -> In p (prayers timings) ->
      now_HHMM env k <> Time p) ->
  forall w,
    alerts (trace (snd (runState (checkPrayerTimes env n) w)))
    = alerts (trace w).
Proof.
  intros H. unfold checkPrayerTimes. induction n as [|n IH]; intros w.
  - reflexivity.
  - rewrite for_ever_step, checkPrayerTimes_body_next, IH.
    destruct (fetch env (fetches w)) as [timings|err] eqn:Hf.
    + rewrite (checkPrayerTimes_body_fetched env w timings Hf). cbn [snd].
      rewrite cycle_alert_silent by (intros p Hp; exact (H _ _ _ p Hf Hp)).
      rewrite trace_advance, alerts_app. cbn. now rewrite app_nil_r.
    + rewrite (checkPrayerTimes_body_failed env w err Hf). cbn [snd].
      rewrite trace_advance, alerts_app. cbn. now rewrite app_nil_r.
Qed.

Lemma no_exact_sample_no_alert_witness :
  alerts (trace (snd (runState
                        (checkPrayerTimes
                           (const_env "12:16" (inl sample_timings) "") 5)
                        world0)))
  = [].
Proof.
  apply (no_exact_sample_no_alert (const_env "12:16" (inl sample_timings) "") 5).
  intros k j timings p Hf Hp. injection Hf as <-. simpl in Hp.
  destruct Hp as [<-|[<-|[<-|[<-|[<-|[<-|[]]]]]]]; vm_compute; discriminate.
Defined.

Lemma strict_selected_time_differs (now : string) (timings : Timings) :
  strictly_increasing timings = true ->
  snd (nextPrayerAt now timings) <> now.
Proof.
  intros Hinc. unfold nextPrayerAt.
  destruct (scan now (prayers timings)) as [r|] eqn:E.
  - apply scan_some_inv in E. destruct E as (p & _ & -> & Hlt).
    apply not_eq_sym, StrOrd.ltb_neq. exact Hlt.
  - cbn [snd]. apply StrOrd.ltb_neq.
    apply (StrOrd.ltb_leb_trans _ (Isha timings)).
    + apply (StrOrd.increasing_head _ _ Hinc). simpl. auto 10.
    + apply (scan_none_inv _ _ E (mkPrayer "Isha" (Isha timings))).
      simpl. auto 10.
Qed.

Lemma alert_message_inj (timings : Timings) (p1 p2 : Prayer) :
  In p1 (prayers timings) -> In p2 (prayers timings) ->
  Name p1 ++ " prayer." = Name p2 ++ " prayer." ->
  p1 = p2.
Proof.
  intros H1 H2 E. simpl in H1, H2.
  destruct H1 as [<-|[<-|[<-|[<-|[<-|[<-|[]]]]]]];
    destruct H2 as [<-|[<-|[<-|[<-|[<-|[<-|[]]]]]]];
    try reflexivity; cbn in E; discriminate E.
Qed.

Lemma alerts_cycle_alert (env : Env) (w : World) (timings : Timings) :
  alerts (cycle_alert env w timings)
  = if (now_HHMM env (S (clock_reads w))
          =? snd (nextPrayerAt (now_HHMM env (clock_reads w)) timings))%string
    then [Notify "Prayer Time"
                 ("It's time for "
                    ++ fst (nextPrayerAt (now_HHMM env (clock_reads w)) timings)
                    ++ " prayer.")]
    else [].
Proof.
  unfold cycle_alert.
  destruct (_ =? _)%string; [destruct (push_err env (pushes w))|]; reflexivity.
Qed.

Lemma alerts_of_fetched_pass (env : Env) (w : World) (timings : Timings) :
  fetch env (fetches w) = inl timings ->
  alerts (trace (snd (runState (checkPrayerTimes_body env) w)))
  = (alerts (trace w) ++ alerts (cycle_alert env w timings))%list.
Proof.
  intros Hf. rewrite (checkPrayerTimes_body_fetched env w timings Hf).
  cbn [snd]. rewrite trace_advance, !alerts_app. cbn [alerts filter is_alert app].
  now rewrite app_nil_r.
Qed.

(** X14: no event is alerted twice in a row.  When two consecutive
    passes fetch the same schedule, with strictly increasing times, and
    the clock does not go back between the check of the first pass and
    the check of the second, the two passes do not both dispatch the
    same alert. *)
Theorem no_repeated_alert
        (env : Env) (w : World) (timings : Timings) (a : Effect) :
  fetch env (fetches w) = inl timings ->
  fetch env (S (fetches w)) = inl timings ->
  strictly_increasing timings = true ->
  (now_HHMM env (2 + clock_reads w) <? now_HHMM env (1 + clock_reads w))%string
  = false ->
  (now_HHMM env (3 + clock_reads w) <? now_HHMM env (2 + clock_reads w))%string
  = false ->
  alerts (trace (snd (runState (checkPrayerTimes env 2) w)))
  <> (alerts (trace w) ++ [a; a])%list.
Proof.
  intros Hf1 Hf2 Hinc H12 H23. unfold checkPrayerTimes. cbn [Nat.add] in *.
  rewrite for_ever_step, checkPrayerTimes_body_next.
  rewrite for_ever_step, checkPrayerTimes_body_next.
  cbn [for_ever]. rewrite ret_run. cbn [snd].
  pose proof (checkPrayerTimes_body_fetched env w timings Hf1) as Hw1.
  cbv zeta in Hw1.
  set (w1 := snd (runState (checkPrayerTimes_body env) w)) in *.
  assert (Hc1 : clock_reads w1 = S (S (clock_reads w)))
    by (subst w1; rewrite Hw1; reflexivity).
  assert (Hf1' : fetch env (fetches w1) = inl timings)
    by (subst w1; rewrite Hw1; exact Hf2).
  rewrite (alerts_of_fetched_pass env w1 timings Hf1').
  subst w1. rewrite (alerts_of_fetched_pass env w timings Hf1).
  rewrite <- app_assoc. intros E. apply app_inv_head in E. revert E.
  rewrite !alerts_cycle_alert, Hc1.
  destruct (nextPrayerAt_candidate (now_HHMM env (clock_reads w)) timings)
    as (p1 & Hp1 & ->).
  pose proof (strict_selected_time_differs
                (now_HHMM env (S (S (clock_reads w)))) timings Hinc) as Hneq.
  destruct (nextPrayerAt_candidate
              (now_HHMM env (S (S (clock_reads w)))) timings)
    as (p2 & Hp2 & E2).
  rewrite E2 in *. cbn [fst snd] in *.
  destruct (String.eqb_spec (now_HHMM env (S (clock_reads w))) (Time p1))
    as [T1|_];
    destruct (String.eqb_spec (now_HHMM env (S (S (S (clock_reads w)))))
                (Time p2)) as [T2|_];
    cbn [app]; try discriminate.
  intros E. injection E as E1 E3. subst a. injection E3 as Hmsg.
  pose proof (alert_message_inj timings p1 p2 Hp1 Hp2 (eq_sym Hmsg)) as <-.
  apply Hneq. rewrite T1, <- T2 in H12. rewrite <- T2.
  apply String.leb_antisym; apply leb_ltb; [exact H12 | exact H23].
Qed.

Lemma no_repeated_alert_witness :
  alerts (trace (snd (runState (checkPrayerTimes (sample_env "") 2)
                               (mkWorld 0 1 0 0 []))))
  <> [ Notify "Prayer Time" "It's time for Dhuhr prayer.";
       Notify "Prayer Time" "It's time for Dhuhr prayer." ].
Proof.
  apply (no_repeated_alert (sample_env "") (mkWorld 0 1 0 0 []) sample_timings
           (Notify "Prayer Time" "It's time for Dhuhr prayer."));
    reflexivity.
Defined.
